(** * Executive Safety Dashboard: analytics service lifecycle

    A shallow embedding of [analytics/main.py] (the FastAPI service: health
    endpoint, lifespan, dependency providers, background jobs, endpoints) and
    of [analytics/health_check.py] (the container probe), with the properties
    the specification states about them.

    Coroutines are embedded as finite trees of effects ([coro]); one
    interpreter runs a coroutine to completion against the behaviour of the
    collaborators ([run]), another runs it up to its next suspension point
    ([resume]) and is used by the event loop that interleaves the two
    background jobs. *)

From stdpp Require Import gmap strings list pretty.
From Stdlib Require Import ZArith NArith Lia.

Open Scope string_scope.

(** * Python values and exceptions *)

(** Values that cross the boundary with the collaborators: what a service
    call answers and what a JSON body decodes to.  A [PyDict] lists its
    items in insertion order, keys being unique. *)
#[local] Unset Elimination Schemes.
Inductive pyval :=
| PyNone
| PyBool (b : bool)
| PyInt (z : Z)
| PyStr (s : string)
| PyList (items : list pyval)
| PyDict (items : list (string * pyval)).
#[local] Set Elimination Schemes.

(** [bool(v)]. *)
Definition truthy (v : pyval) : bool :=
  match v with
  | PyNone => false
  | PyBool b => b
  | PyInt z => negb (z =? 0)%Z
  | PyStr s => negb (String.eqb s "")
  | PyList l => match l with [] => false | _ => true end
  | PyDict l => match l with [] => false | _ => true end
  end.

(** [type(v).__name__]. *)
Definition type_name (v : pyval) : string :=
  match v with
  | PyNone => "NoneType"
  | PyBool _ => "bool"
  | PyInt _ => "int"
  | PyStr _ => "str"
  | PyList _ => "list"
  | PyDict _ => "dict"
  end.

(** [v == s] for a string literal [s]: only a [str] equals a [str]. *)
Definition py_eq_str (v : pyval) (s : string) : bool :=
  match v with
  | PyStr t => String.eqb t s
  | _ => false
  end.

(** [v == n] for an integer literal [n] ([True == 1] and [False == 0]). *)
Definition py_eq_int (v : pyval) (n : Z) : bool :=
  match v with
  | PyInt z => (z =? n)%Z
  | PyBool b => ((if b then 1 else 0) =? n)%Z
  | _ => false
  end.

Fixpoint assoc (k : string) (items : list (string * pyval)) : option pyval :=
  match items with
  | [] => None
  | (k', v) :: rest => if String.eqb k k' then Some v else assoc k rest
  end.

(** The exceptions of the model are the subclasses of Python's [Exception],
    which is what every handler of the two files names.  Cancellation of
    the running task and interpreter exit are not among them. *)
Inductive exn :=
| HTTPException (status_code : Z) (detail : string)
| TimeoutError (msg : string)
| ClientError (msg : string)
| AttributeError (msg : string)
| OtherError (cls : string) (msg : string).

(** [str(e)]; for [HTTPException] the rendering of Starlette. *)
Definition str (e : exn) : string :=
  match e with
  | HTTPException c d => pretty c +:+ ": " +:+ d
  | TimeoutError m | ClientError m | AttributeError m => m
  | OtherError _ m => m
  end.

(** How an awaited call ends when it ends. *)
Inductive outcome :=
| Returns (v : pyval)
| Raises (e : exn).

(** * Requests of the API (pydantic models) *)

Inductive severity := low | medium | high | critical.

Record SafetyIncident := {
  incident_id : string;
  incident_timestamp : N;
  incident_severity : severity;
  category : string;
  description : string;
  location : string;
  employee_id : option string;
  cost_estimate : option Z;
  metadata : option pyval
}.

Record AnalyticsRequest := {
  start_date : N;
  end_date : N;
  metrics : list string;
  filters : option pyval
}.

Inductive prediction_kind := incident_risk | cost_forecast | safety_score.

Record PredictionRequest := {
  prediction_type : prediction_kind;
  time_horizon : Z;
  parameters : option pyval
}.

Definition prediction_kind_name (k : prediction_kind) : string :=
  match k with
  | incident_risk => "incident_risk"
  | cost_forecast => "cost_forecast"
  | safety_score => "safety_score"
  end.

(** * Effects *)

(** The awaited operations of the collaborators. *)
Inductive callee :=
| DbConnect
| DbHealthCheck
| DbDisconnect
| RedisPing
| RedisClose
| RetrainModels
| CollectSystemMetrics
| AnalyzeIncidents (request : AnalyticsRequest)
| GeneratePrediction (request : PredictionRequest)
| GenerateExecutiveReportAsync (request : AnalyticsRequest)
| GetReportStatus (task_id : string)
| IngestIncident (incident : SafetyIncident)
| SessionGet (url : string)
| ResponseJson.

Inductive level := INFO | ERROR.

(** What a run leaves behind, in order of occurrence. *)
Inductive event :=
| Logged (lvl : level) (msg : string)
| Printed (msg : string) (value : option pyval)
| Counted (metric : string) (labels : list string)
| Observed (metric : string) (seconds : N)
| Spawned (task : string)
| Served (port : Z)
| Called (c : callee)
| Answered (c : callee) (o : outcome).

(** A coroutine: a tree of effects ending in a value or a raised exception.
    [Await] suspends on a collaborator, [Sleep] suspends on a timer. *)
Inductive coro (A : Type) :=
| Ret (a : A)
| Raise (e : exn)
| Await (c : callee) (k : outcome -> coro A)
| Sleep (secs : N) (k : coro A)
| Emit (ev : event) (k : coro A)
| Now (k : N -> coro A).

Arguments Ret {A} a.
Arguments Raise {A} e.
Arguments Await {A} c k.
Arguments Sleep {A} secs k.
Arguments Emit {A} ev k.
Arguments Now {A} k.

Fixpoint bind {A B} (m : coro A) (f : A -> coro B) : coro B :=
  match m with
  | Ret a => f a
  | Raise e => Raise e
  | Await c k => Await c (fun o => bind (k o) f)
  | Sleep n k => Sleep n (bind k f)
  | Emit ev k => Emit ev (bind k f)
  | Now k => Now (fun t => bind (k t) f)
  end.

(** [try: m  except Exception as e: h e]. *)
Fixpoint try_except {A} (m : coro A) (h : exn -> coro A) : coro A :=
  match m with
  | Ret a => Ret a
  | Raise e => h e
  | Await c k => Await c (fun o => try_except (k o) h)
  | Sleep n k => Sleep n (try_except k h)
  | Emit ev k => Emit ev (try_except k h)
  | Now k => Now (fun t => try_except (k t) h)
  end.

(** [try: m  finally: f] where [f] neither returns a value nor raises. *)
Definition try_finally {A} (m : coro A) (f : coro unit) : coro A :=
  bind (try_except (bind m (fun a => Ret (inl a))) (fun e => Ret (inr e)))
       (fun r => bind f (fun _ => match r with inl a => Ret a | inr e => Raise e end)).

#[global] Instance coro_ret : MRet coro := @Ret.
#[global] Instance coro_bind : MBind coro := fun A B f m => bind m f.

(** [await c]: the answer of the collaborator, or its exception raised at
    the await. *)
Definition await (c : callee) : coro pyval :=
  Await c (fun o => match o with Returns v => Ret v | Raises e => Raise e end).

Definition sleep (secs : N) : coro unit := Sleep secs (Ret tt).
Definition emit (ev : event) : coro unit := Emit ev (Ret tt).
Definition utcnow : coro N := Now Ret.
Definition logger_info (msg : string) : coro unit := emit (Logged INFO msg).
Definition logger_error (msg : string) : coro unit := emit (Logged ERROR msg).
Definition print (msg : string) (value : option pyval) : coro unit :=
  emit (Printed msg value).

(** * Running a coroutine to completion *)

(** An awaited call answers after some time, or never. *)
Inductive behaviour :=
| Completes (after : N) (o : outcome)
| Hangs.

Definition environment := callee -> behaviour.

Record world := World { clock : N; journal : list event }.

Definition tick (d : N) (w : world) : world :=
  {| clock := clock w + d; journal := journal w |}.

Definition record (ev : event) (w : world) : world :=
  {| clock := clock w; journal := journal w ++ [ev] |}.

Inductive result (A : Type) :=
| Value (a : A)
| Error (e : exn)
| Stuck.

Arguments Value {A} a.
Arguments Error {A} e.
Arguments Stuck {A}.

Fixpoint run {A} (env : environment) (m : coro A) (w : world) : result A * world :=
  match m with
  | Ret a => (Value a, w)
  | Raise e => (Error e, w)
  | Await c k =>
      match env c with
      | Completes d o => run env (k o) (record (Answered c o) (tick d (record (Called c) w)))
      | Hangs => (Stuck, record (Called c) w)
      end
  | Sleep n k => run env k (tick n w)
  | Emit ev k => run env k (record ev w)
  | Now k => run env (k (clock w)) w
  end.

Definition fresh : world := World 0 [].

(** The awaited calls of a journal, in the order they were made. *)
Definition calls (evs : list event) : list callee :=
  omap (fun ev => match ev with Called c => Some c | _ => None end) evs.

(** * analytics/main.py *)

Module Main.

(** ** Collaborators and module globals *)

Record Settings := { database_url : string; redis_url : string }.

Record Database := { db_url : string }.
Record Redis := { cache_url : string }.
Record AnalyticsService := { analytics_db : Database; analytics_cache : Redis }.
Record PredictionService := { prediction_db : Database; prediction_cache : Redis }.
Record ReportService := { report_db : Database; report_cache : Redis }.

(** The five module-level names of [main.py]; each starts as [None]. *)
Record globals := {
  db : option Database;
  redis_client : option Redis;
  analytics_service : option AnalyticsService;
  prediction_service : option PredictionService;
  report_service : option ReportService
}.

Definition unset : globals :=
  {| db := None; redis_client := None; analytics_service := None;
     prediction_service := None; report_service := None |}.

Record HealthResponse := {
  status : string;
  timestamp : N;
  uptime : Z;
  version : string;
  services : gmap string string
}.

Record JSONResponse := { status_code : Z; content : pyval }.

(** Timestamps are readings of the model's clock; this is their text. *)
Definition isoformat (t : N) : string := pretty t.

(** ** lifespan *)

(** The part of [lifespan] before [yield]; it answers the globals it has
    assigned.  An exception leaves the function and the application does
    not start. *)
Definition lifespan_startup (settings : Settings) : coro globals :=
  logger_info "Starting Executive Safety Dashboard Analytics Service";;
  let d := {| db_url := database_url settings |} in
  await DbConnect;;
  logger_info "Database connected";;
  let r := {| cache_url := redis_url settings |} in
  await RedisPing;;
  logger_info "Redis connected";;
  let a := {| analytics_db := d; analytics_cache := r |} in
  let p := {| prediction_db := d; prediction_cache := r |} in
  let s := {| report_db := d; report_cache := r |} in
  emit (Spawned "background_model_training");;
  emit (Spawned "background_metrics_collection");;
  emit (Served 8001);;
  logger_info "Prometheus metrics server started on port 8001";;
  logger_info "Analytics service initialization completed";;
  Ret {| db := Some d; redis_client := Some r; analytics_service := Some a;
         prediction_service := Some p; report_service := Some s |}.

(** A method called on a global that is still [None]. *)
Definition on_handle {H A} (h : option H) (method : string) (m : coro A) : coro A :=
  match h with
  | Some _ => m
  | None => Raise (AttributeError ("'NoneType' object has no attribute '" +:+ method +:+ "'"))
  end.

(** The part of [lifespan] after [yield]. *)
Definition lifespan_shutdown (g : globals) : coro unit :=
  logger_info "Shutting down analytics service";;
  on_handle (redis_client g) "close" (await RedisClose);;
  on_handle (db g) "disconnect" (await DbDisconnect);;
  logger_info "Analytics service shutdown completed".

(** ** Dependency providers *)

Definition get_analytics_service (g : globals) : coro AnalyticsService :=
  match analytics_service g with
  | None => Raise (HTTPException 503 "Analytics service not available")
  | Some s => Ret s
  end.

Definition get_prediction_service (g : globals) : coro PredictionService :=
  match prediction_service g with
  | None => Raise (HTTPException 503 "Prediction service not available")
  | Some s => Ret s
  end.

Definition get_report_service (g : globals) : coro ReportService :=
  match report_service g with
  | None => Raise (HTTPException 503 "Report service not available")
  | Some s => Ret s
  end.

(** ** Background tasks *)

(** Each background task is [while True: body]; the definition is the body,
    which the event loop below enters again each time it completes. *)
Definition background_model_training (g : globals) : coro unit :=
  try_except
    (logger_info "Starting scheduled model training";;
     match prediction_service g with
     | Some _ => await RetrainModels;; Ret tt
     | None => Ret tt
     end;;
     logger_info "Scheduled model training completed")
    (fun e => logger_error ("Model training failed: " +:+ str e));;
  sleep 86400.

Definition background_metrics_collection (g : globals) : coro unit :=
  try_except
    match analytics_service g with
    | Some _ => await CollectSystemMetrics;; Ret tt
    | None => Ret tt
    end
    (fun e => logger_error ("Metrics collection failed: " +:+ str e));;
  sleep 300.

(** ** Health endpoint *)

Definition availability {S} (s : option S) : string :=
  match s with Some _ => "available" | None => "unavailable" end.

Definition health_check (g : globals) : coro HealthResponse :=
  try_except
    (db_ok ← match db g with
              | Some _ => v ← await DbHealthCheck; Ret (truthy v)
              | None => Ret false
              end;
     let db_status := if (db_ok : bool) then "connected" else "disconnected" in
     redis_status ← try_except
                       (match redis_client g with
                        | Some _ => await RedisPing;; Ret tt
                        | None => Ret tt
                        end;;
                        Ret "connected")
                       (fun _ => Ret "disconnected");
     t ← utcnow;
     Ret {| status := if String.eqb db_status "connected" && String.eqb redis_status "connected"
                      then "healthy" else "unhealthy";
            timestamp := t;
            uptime := 0;
            version := "1.0.0";
            services := <["database" := db_status]>
                        (<["redis" := redis_status]>
                        (<["analytics" := availability (analytics_service g)]>
                        (<["prediction" := availability (prediction_service g)]>
                        (<["reporting" := availability (report_service g)]> ∅)))) |})
    (fun e =>
       logger_error ("Health check failed: " +:+ str e);;
       t ← utcnow;
       Ret {| status := "unhealthy"; timestamp := t; uptime := 0;
              version := "1.0.0"; services := ∅ |}).

(** ** Metrics of the request handlers *)

Definition REQUEST_COUNT_inc (method endpoint : string) : coro unit :=
  emit (Counted "analytics_requests_total" [method; endpoint]).

Definition PREDICTION_COUNT_inc (type : string) : coro unit :=
  emit (Counted "safety_predictions_total" [type]).

(** [with REQUEST_DURATION.time(): m]. *)
Definition REQUEST_DURATION_time {A} (m : coro A) : coro A :=
  t0 ← utcnow;
  try_finally m
    (t1 ← utcnow;
     emit (Observed "analytics_request_duration_seconds" (t1 - t0))).

(** ** Analytics endpoints *)

Definition success (data : pyval) : coro JSONResponse :=
  t ← utcnow;
  Ret {| status_code := 200;
         content := PyDict [("status", PyStr "success"); ("data", data);
                            ("timestamp", PyStr (isoformat t))] |}.

Definition internal_error {A} (what : string) (e : exn) : coro A :=
  logger_error (what +:+ " failed: " +:+ str e);;
  Raise (HTTPException 500 (str e)).

Definition analyze_incidents (request : AnalyticsRequest) (service : AnalyticsService)
  : coro JSONResponse :=
  REQUEST_COUNT_inc "POST" "/analytics/incidents";;
  REQUEST_DURATION_time
    (try_except
       (result ← await (AnalyzeIncidents request); success result)
       (internal_error "Incident analysis")).

Definition generate_predictions (request : PredictionRequest) (service : PredictionService)
  : coro JSONResponse :=
  REQUEST_COUNT_inc "POST" "/analytics/predictions";;
  PREDICTION_COUNT_inc (prediction_kind_name (prediction_type request));;
  REQUEST_DURATION_time
    (try_except
       (result ← await (GeneratePrediction request); success result)
       (internal_error "Prediction generation")).

Definition generate_executive_report (request : AnalyticsRequest) (service : ReportService)
  : coro JSONResponse :=
  REQUEST_COUNT_inc "POST" "/analytics/reports/executive";;
  try_except
    (task_id ← await (GenerateExecutiveReportAsync request);
     t ← utcnow;
     Ret {| status_code := 200;
            content := PyDict [("status", PyStr "accepted"); ("task_id", task_id);
                               ("message", PyStr "Executive report generation started");
                               ("timestamp", PyStr (isoformat t))] |})
    (internal_error "Executive report generation").

Definition get_report_status (task_id : string) (service : ReportService)
  : coro JSONResponse :=
  try_except
    (status ← await (GetReportStatus task_id); success status)
    (internal_error "Report status check").

Definition ingest_incident (incident : SafetyIncident) (service : AnalyticsService)
  : coro JSONResponse :=
  REQUEST_COUNT_inc "POST" "/analytics/incidents/ingest";;
  try_except
    (result ← await (IngestIncident incident); success result)
    (internal_error "Incident ingestion").

(** ** Error handlers and routing *)

Definition global_exception_handler (exc : exn) : coro JSONResponse :=
  logger_error ("Unhandled exception: " +:+ str exc);;
  t ← utcnow;
  Ret {| status_code := 500;
         content := PyDict [("status", PyStr "error");
                            ("message", PyStr "Internal server error");
                            ("timestamp", PyStr (isoformat t))] |}.

(** [Depends(provider)]: the provider runs first and the endpoint is called
    with what it returns. *)
Definition Depends {S A} (provider : coro S) (endpoint : S -> coro A) : coro A :=
  service ← provider; endpoint service.

(** What the application answers when an endpoint raises: an
    [HTTPException] becomes a response with its status code and detail,
    anything else goes to [global_exception_handler]. *)
Definition respond (m : coro JSONResponse) : coro JSONResponse :=
  try_except m
    (fun e =>
       match e with
       | HTTPException c d =>
           Ret {| status_code := c; content := PyDict [("detail", PyStr d)] |}
       | _ => global_exception_handler e
       end).

(** The requests of the five service-backed routes, already validated. *)
Inductive request :=
| POST_analytics_incidents (body : AnalyticsRequest)
| POST_analytics_predictions (body : PredictionRequest)
| POST_analytics_reports_executive (body : AnalyticsRequest)
| GET_analytics_reports_status (task_id : string)
| POST_analytics_incidents_ingest (body : SafetyIncident).

Definition app (g : globals) (rq : request) : coro JSONResponse :=
  respond
    match rq with
    | POST_analytics_incidents body =>
        Depends (get_analytics_service g) (analyze_incidents body)
    | POST_analytics_predictions body =>
        Depends (get_prediction_service g) (generate_predictions body)
    | POST_analytics_reports_executive body =>
        Depends (get_report_service g) (generate_executive_report body)
    | GET_analytics_reports_status task_id =>
        Depends (get_report_service g) (get_report_status task_id)
    | POST_analytics_incidents_ingest body =>
        Depends (get_analytics_service g) (ingest_incident body)
    end.

(** The global a route depends on is set. *)
Definition service_present (g : globals) (rq : request) : bool :=
  match rq with
  | POST_analytics_incidents _ | POST_analytics_incidents_ingest _ =>
      bool_decide (is_Some (analytics_service g))
  | POST_analytics_predictions _ => bool_decide (is_Some (prediction_service g))
  | POST_analytics_reports_executive _ | GET_analytics_reports_status _ =>
      bool_decide (is_Some (report_service g))
  end.

Definition service_label (rq : request) : string :=
  match rq with
  | POST_analytics_incidents _ | POST_analytics_incidents_ingest _ => "Analytics"
  | POST_analytics_predictions _ => "Prediction"
  | POST_analytics_reports_executive _ | GET_analytics_reports_status _ => "Report"
  end.

End Main.

(** * The event loop and the two background tasks *)

Module EventLoop.
Import Main.

(** Where a task created by [asyncio.create_task] stands: about to enter
    the body of its [while True] loop, suspended on an awaited call or on a
    timer, or ended by an exception that left the coroutine. *)
Inductive task_state :=
| Runnable
| OnCall (c : callee) (k : outcome -> coro unit)
| OnTimer (due : N) (k : coro unit)
| Crashed (e : exn).

(** Runs a coroutine up to its next suspension point.  A body that runs to
    its end leaves the task at the head of the loop, from where the next
    turn enters the body again. *)
Fixpoint resume (m : coro unit) (w : world) : task_state * world :=
  match m with
  | Ret _ => (Runnable, w)
  | Raise e => (Crashed e, w)
  | Await c k => (OnCall c k, record (Called c) w)
  | Sleep n k => (OnTimer (clock w + n) k, w)
  | Emit ev k => resume k (record ev w)
  | Now k => resume (k (clock w)) w
  end.

Inductive job := model_training | metrics_collection.

#[global] Instance job_eq_dec : EqDecision job.
Proof. solve_decision. Defined.

Definition body (g : globals) (j : job) : coro unit :=
  match j with
  | model_training => background_model_training g
  | metrics_collection => background_metrics_collection g
  end.

Record loop_state := {
  training : task_state;
  collection : task_state;
  seen : world
}.

Definition task (j : job) (s : loop_state) : task_state :=
  match j with
  | model_training => training s
  | metrics_collection => collection s
  end.

Definition update (j : job) (r : task_state * world) (s : loop_state) : loop_state :=
  match j with
  | model_training => {| training := r.1; collection := collection s; seen := r.2 |}
  | metrics_collection => {| training := training s; collection := r.1; seen := r.2 |}
  end.

(** What wakes a task up. *)
Inductive wakeup :=
| Start
| Answer (o : outcome)
| Timer.

(** One turn of the loop: after [dt] units of time, task [j] is woken by
    [wk] and runs to its next suspension.  [None] when [wk] is not what the
    task waits for. *)
Definition step (g : globals) (j : job) (wk : wakeup) (dt : N) (s : loop_state)
  : option loop_state :=
  let w := tick dt (seen s) in
  match task j s, wk with
  | Runnable, Start => Some (update j (resume (body g j) w) s)
  | OnCall c k, Answer o => Some (update j (resume (k o) (record (Answered c o) w)) s)
  | OnTimer due k, Timer =>
      if (due <=? clock w)%N then Some (update j (resume k w) s) else None
  | _, _ => None
  end.

(** The state [lifespan] leaves: both tasks created, neither run yet. *)
Definition created (w : world) : loop_state :=
  {| training := Runnable; collection := Runnable; seen := w |}.

Inductive reachable (g : globals) (w0 : world) : loop_state -> Prop :=
| reach_created : reachable g w0 (created w0)
| reach_step s j wk dt s' :
    reachable g w0 s -> step g j wk dt s = Some s' -> reachable g w0 s'.

(** A schedule and the state it leads to. *)
Fixpoint exec (g : globals) (turns : list (job * wakeup * N)) (s : loop_state)
  : option loop_state :=
  match turns with
  | [] => Some s
  | (j, wk, dt) :: rest =>
      match step g j wk dt s with
      | Some s' => exec g rest s'
      | None => None
      end
  end.

(** The awaited action of each job. *)
Definition is_action (j : job) (c : callee) : bool :=
  match j, c with
  | model_training, RetrainModels => true
  | metrics_collection, CollectSystemMetrics => true
  | _, _ => false
  end.

Definition begins (j : job) (ev : event) : bool :=
  match ev with Called c => is_action j c | _ => false end.

Definition ends (j : job) (ev : event) : bool :=
  match ev with Answered c _ => is_action j c | _ => false end.

(** Executions of [j]'s action begun and not yet returned, read off the
    journal. *)
Definition in_flight (j : job) (evs : list event) : Z :=
  Z.of_nat (length (filter (fun ev => begins j ev = true) evs))
  - Z.of_nat (length (filter (fun ev => ends j ev = true) evs)).

(** *** What the bodies of the two loops do, for the invariant *)

Definition action (j : job) : callee :=
  match j with
  | model_training => RetrainModels
  | metrics_collection => CollectSystemMetrics
  end.

Definition interval (j : job) : N :=
  match j with
  | model_training => 86400
  | metrics_collection => 300
  end.

(** The global the body of [j] tests before it awaits its action. *)
Definition service_set (g : globals) (j : job) : bool :=
  match j with
  | model_training => bool_decide (is_Some (prediction_service g))
  | metrics_collection => bool_decide (is_Some (analytics_service g))
  end.

Definition failure_message (j : job) (e : exn) : string :=
  match j with
  | model_training => "Model training failed: " +:+ str e
  | metrics_collection => "Metrics collection failed: " +:+ str e
  end.

(** Logged on entering the body. *)
Definition prologue (j : job) : list event :=
  match j with
  | model_training => [Logged INFO "Starting scheduled model training"]
  | metrics_collection => []
  end.

(** Logged when the action has ended. *)
Definition epilogue (j : job) (o : outcome) : list event :=
  match o, j with
  | Returns _, model_training => [Logged INFO "Scheduled model training completed"]
  | Returns _, metrics_collection => []
  | Raises e, _ => [Logged ERROR (failure_message j e)]
  end.

Definition records (evs : list event) (w : world) : world :=
  fold_left (fun w ev => record ev w) evs w.

Definition awaiting (st : task_state) : Z :=
  match st with
  | OnCall _ _ => 1
  | _ => 0
  end.

(** The places a background task can be found at: the head of its loop,
    its awaited action (from where any outcome leads to the sleep), or the
    sleep that ends the body. *)
Inductive parked (g : globals) (j : job) : task_state -> Prop :=
| parked_runnable : parked g j Runnable
| parked_on_call k :
    service_set g j = true ->
    (forall o w, resume (k o) w
                 = (OnTimer (clock w + interval j) (Ret tt), records (epilogue j o) w)) ->
    parked g j (OnCall (action j) k)
| parked_on_timer due : parked g j (OnTimer due (Ret tt)).

Definition invariant (g : globals) (w0 : world) (s : loop_state) : Prop :=
  forall j, parked g j (task j s)
            /\ in_flight j (journal (seen s))
               = (in_flight j (journal w0) + awaiting (task j s))%Z.

(** Logged by a tick that finds the service of its job unset. *)
Definition idle_run (j : job) : list event :=
  match j with
  | model_training =>
      [Logged INFO "Starting scheduled model training";
       Logged INFO "Scheduled model training completed"]
  | metrics_collection => []
  end.

(** A training tick announced counts 1, one reported completed or failed
    counts -1. *)
Definition training_balance (ev : event) : Z :=
  match ev with
  | Logged INFO msg =>
      if String.eqb msg "Starting scheduled model training" then 1
      else if String.eqb msg "Scheduled model training completed" then -1
      else 0
  | Logged ERROR msg => if String.prefix "Model training failed: " msg then -1 else 0
  | _ => 0
  end.

(** Training ticks announced in the journal and not yet reported over. *)
Definition unfinished (evs : list event) : Z :=
  foldr (fun ev z => (training_balance ev + z)%Z) 0%Z evs.

(** Calls of the collaborators that ended with an exception. *)
Definition failures (evs : list event) : nat :=
  length (filter (fun ev => match ev with Answered _ (Raises _) => true | _ => false end = true)
                 evs).

End EventLoop.

(** * analytics/health_check.py *)

Module HealthCheck.

Record Config := { HOST : string; PORT : Z; TIMEOUT : Z }.

Definition health_url (cfg : Config) : string :=
  "http://" +:+ HOST cfg +:+ ":" +:+ pretty (PORT cfg) +:+ "/health".

(** [data.get(key)]: only a dict has the method. *)
Definition get (data : pyval) (key : string) : coro pyval :=
  match data with
  | PyDict items => Ret (default PyNone (assoc key items))
  | _ => Raise (AttributeError ("'" +:+ type_name data +:+ "' object has no attribute 'get'"))
  end.

(** The session is built with [ClientTimeout(total=TIMEOUT)]; what that
    makes of a slow service is up to the session, and reaches the probe as
    the outcome of its awaits: an answer, [asyncio.TimeoutError] or another
    exception.  [SessionGet] answers [response.status].  In the handlers,
    [TimeoutError] stands for the instances of [asyncio.TimeoutError] and
    [ClientError] for the other instances of [aiohttp.ClientError]. *)
Definition perform_health_check (cfg : Config) : coro bool :=
  let url := health_url cfg in
  try_except
    (response_status ← await (SessionGet url);
     if py_eq_int response_status 200 then
       data ← await ResponseJson;
       reported ← get data "status";
       if py_eq_str reported "healthy" then
         print "Health check passed: " (Some data);;
         Ret true
       else
         print "Health check failed: Service unhealthy - " (Some data);;
         Ret false
     else
       print "Health check failed: HTTP " (Some response_status);;
       Ret false)
    (fun e =>
       match e with
       | TimeoutError _ =>
           print ("Health check failed: Timeout after " +:+ pretty (TIMEOUT cfg) +:+ "s") None;;
           Ret false
       | ClientError _ =>
           print ("Health check failed: Client error - " +:+ str e) None;;
           Ret false
       | _ =>
           print ("Health check failed: Unexpected error - " +:+ str e) None;;
           Ret false
       end).

(** [sys.exit(n)] ends [main]; the value of [main] is the exit status. *)
Definition sys_exit (n : Z) : coro Z := Ret n.

Definition main (cfg : Config) : coro Z :=
  print ("Performing health check on analytics service at "
         +:+ HOST cfg +:+ ":" +:+ pretty (PORT cfg)) None;;
  t ← utcnow;
  print ("Timestamp: " +:+ Main.isoformat t) None;;
  success ← perform_health_check cfg;
  if (success : bool) then
    print "Analytics service health check: PASSED" None;;
    sys_exit 0
  else
    print "Analytics service health check: FAILED" None;;
    sys_exit 1.

(** The session delivered a response with status 200 and a body that
    decodes to a JSON object whose "status" is "healthy". *)
Definition healthy_reply (cfg : Config) (env : environment) : Prop :=
  exists d1 d2 items,
    env (SessionGet (health_url cfg)) = Completes d1 (Returns (PyInt 200))
    /\ env ResponseJson = Completes d2 (Returns (PyDict items))
    /\ assoc "status" items = Some (PyStr "healthy").

End HealthCheck.

(** * Concrete situations *)

Module Scenario.
Import Main.

Definition store : Database := {| db_url := "postgresql://analytics" |}.
Definition cache : Redis := {| cache_url := "redis://cache" |}.

(** The globals once [lifespan] has started the service. *)
Definition serving : globals :=
  {| db := Some store;
     redis_client := Some cache;
     analytics_service := Some {| analytics_db := store; analytics_cache := cache |};
     prediction_service := Some {| prediction_db := store; prediction_cache := cache |};
     report_service := Some {| report_db := store; report_cache := cache |} |}.

(** Collaborators that all answer [None] at once, but for the two pings. *)
Definition pings (database redis : behaviour) : environment :=
  fun c =>
    match c with
    | DbHealthCheck => database
    | RedisPing => redis
    | _ => Completes 0 (Returns PyNone)
    end.

Definition up : outcome := Returns (PyBool true).
Definition refused : exn := OtherError "ConnectionError" "connection refused".

(** Collaborators that answer at once, the two disconnects as given. *)
Definition disconnects (redis database : outcome) : environment :=
  fun c =>
    match c with
    | RedisClose => Completes 0 redis
    | DbDisconnect => Completes 0 database
    | _ => Completes 0 (Returns PyNone)
    end.

(** A report service that knows no task. *)
Definition no_such_task : environment :=
  fun c =>
    match c with
    | GetReportStatus _ => Completes 1 (Raises (HTTPException 404 "Task not found"))
    | _ => Completes 0 (Returns PyNone)
    end.

(** The event loop just after the training task has begun its first tick. *)
Definition retraining : EventLoop.loop_state :=
  default (EventLoop.created fresh)
          (EventLoop.exec serving [(EventLoop.model_training, EventLoop.Start, 0%N)]
                          (EventLoop.created fresh)).

Definition probe : HealthCheck.Config :=
  {| HealthCheck.HOST := "localhost"; HealthCheck.PORT := 8000; HealthCheck.TIMEOUT := 5 |}.

(** A service that answers the probe 200 and healthy. *)
Definition healthy_service : environment :=
  fun c =>
    match c with
    | SessionGet _ => Completes 1 (Returns (PyInt 200))
    | ResponseJson => Completes 1 (Returns (PyDict [("status", PyStr "healthy")]))
    | _ => Hangs
    end.

(** The loop once that first retraining has returned, after 10 units of
    time, and then once the metrics task has begun its first tick, 100
    later. *)
Definition trained : EventLoop.loop_state :=
  default retraining
          (EventLoop.step serving EventLoop.model_training
                          (EventLoop.Answer (Returns PyNone)) 10 retraining).

Definition collecting : EventLoop.loop_state :=
  default trained
          (EventLoop.exec serving [(EventLoop.metrics_collection, EventLoop.Start, 100%N)]
                          trained).

(** Globals with the connections made but no service object. *)
Definition connected_only : globals :=
  {| db := Some store; redis_client := Some cache; analytics_service := None;
     prediction_service := None; report_service := None |}.

(** The loop of a service without service objects, one training tick and
    one sleep later. *)
Definition idling : EventLoop.loop_state :=
  default (EventLoop.created fresh)
          (EventLoop.exec connected_only
             [(EventLoop.model_training, EventLoop.Start, 0%N);
              (EventLoop.model_training, EventLoop.Timer, 86400%N);
              (EventLoop.model_training, EventLoop.Start, 0%N)]
             (EventLoop.created fresh)).

End Scenario.

(** * Reading a journal *)

(** Tasks created and servers started, in order. *)
Definition launched (evs : list event) : list (string + Z) :=
  omap (fun ev => match ev with
                  | Spawned t => Some (inl t)
                  | Served p => Some (inr p)
                  | _ => None
                  end) evs.

(** Increments of the counters, in order. *)
Definition counted (evs : list event) : list (string * list string) :=
  omap (fun ev => match ev with Counted m l => Some (m, l) | _ => None end) evs.

(** Observations of the histograms, in order. *)
Definition observed (evs : list event) : list (string * N) :=
  omap (fun ev => match ev with Observed m d => Some (m, d) | _ => None end) evs.

(** Messages logged at level ERROR, in order. *)
Definition errors (evs : list event) : list string :=
  omap (fun ev => match ev with Logged ERROR msg => Some msg | _ => None end) evs.

(** Messages logged at level INFO, in order. *)
Definition infos (evs : list event) : list string :=
  omap (fun ev => match ev with Logged INFO msg => Some msg | _ => None end) evs.

(** Lines printed, in order. *)
Definition printed (evs : list event) : list string :=
  omap (fun ev => match ev with Printed msg _ => Some msg | _ => None end) evs.

Module Route.
Import Main.

(** The call a route makes on its service, and how its handler names the
    operation when it logs a failure. *)
Definition service_call (rq : request) : callee :=
  match rq with
  | POST_analytics_incidents body => AnalyzeIncidents body
  | POST_analytics_predictions body => GeneratePrediction body
  | POST_analytics_reports_executive body => GenerateExecutiveReportAsync body
  | GET_analytics_reports_status task_id => GetReportStatus task_id
  | POST_analytics_incidents_ingest body => IngestIncident body
  end.

Definition operation (rq : request) : string :=
  match rq with
  | POST_analytics_incidents _ => "Incident analysis"
  | POST_analytics_predictions _ => "Prediction generation"
  | POST_analytics_reports_executive _ => "Executive report generation"
  | GET_analytics_reports_status _ => "Report status check"
  | POST_analytics_incidents_ingest _ => "Incident ingestion"
  end.

(** The routes whose handler runs under [REQUEST_DURATION.time()]. *)
Definition timed (rq : request) : bool :=
  match rq with
  | POST_analytics_incidents _ | POST_analytics_predictions _ => true
  | _ => false
  end.

(** The counters a handler increments before it calls its service. *)
Definition increments (rq : request) : list (string * list string) :=
  match rq with
  | POST_analytics_incidents _ =>
      [("analytics_requests_total", ["POST"; "/analytics/incidents"])]
  | POST_analytics_predictions body =>
      [("analytics_requests_total", ["POST"; "/analytics/predictions"]);
       ("safety_predictions_total", [prediction_kind_name (prediction_type body)])]
  | POST_analytics_reports_executive _ =>
      [("analytics_requests_total", ["POST"; "/analytics/reports/executive"])]
  | GET_analytics_reports_status _ => []
  | POST_analytics_incidents_ingest _ =>
      [("analytics_requests_total", ["POST"; "/analytics/incidents/ingest"])]
  end.

End Route.

(** * Properties *)

(** ** The interpreter commutes with sequencing and with handlers *)

Lemma run_bind {A B} env (m : coro A) (f : A -> coro B) w :
  run env (bind m f) w =
  match run env m w with
  | (Value a, w') => run env (f a) w'
  | (Error e, w') => (Error e, w')
  | (Stuck, w') => (Stuck, w')
  end.
Proof.
  revert w; induction m as [a|e|c k IH|n k IH|ev k IH|k IH];
    intros w; simpl; auto.
  - destruct (env c); auto.
Qed.

Lemma run_try_except {A} env (m : coro A) h w :
  run env (try_except m h) w =
  match run env m w with
  | (Error e, w') => run env (h e) w'
  | r => r
  end.
Proof.
  revert w; induction m as [a|e|c k IH|n k IH|ev k IH|k IH];
    intros w; simpl; auto.
  - destruct (env c); auto.
Qed.

(** ** Health endpoint *)

Section Health.
Import Main.

(** Splits a run of [health_check] along the handles that are set and the
    way the two pings end. *)
Ltac health_cases g env :=
  unfold health_check;
  destruct (db g) as [?|] eqn:Hdb, (redis_client g) as [?|] eqn:Hredis;
  destruct (env DbHealthCheck) as [d1 [v1|e1]|] eqn:Hping;
  destruct (env RedisPing) as [d2 [v2|e2]|] eqn:Hpong;
  cbn; rewrite ?Hping; cbn;
  try (destruct (truthy v1) eqn:Htruthy; cbn);
  rewrite ?Hpong; cbn.

(** C2: whatever the pings do that ends (a truthy or falsy answer, an
    exception), [health_check] returns a [HealthResponse]; no exception
    ever leaves it, and it fails to return only when a ping it awaits never
    ends. *)
Theorem health_check_never_raises (g : globals) (env : environment) (w : world) :
  (exists h w', run env (health_check g) w = (Value h, w'))
  \/ (exists w', run env (health_check g) w = (Stuck, w')
                 /\ (env DbHealthCheck = Hangs \/ env RedisPing = Hangs)).
Proof.
  health_cases g env; eauto 8.
Qed.

(** C1, as stated, fails when it is the database ping that raises: the
    snapshot then has no entry for the database at all. *)
Lemma health_check_database_error_counterexample :
  exists h w',
    run (Scenario.pings (Completes 3 (Raises Scenario.refused)) (Completes 1 Scenario.up))
        (health_check Scenario.serving) fresh = (Value h, w')
    /\ services h !! "database" = None
    /\ services h !! "database" <> Some "disconnected".
Proof.
  eexists _, _; split; [reflexivity|]. cbn. split; [reflexivity | discriminate].
Qed.

(** C1, amended: a redis ping that raises, and a database ping that
    answers a falsy value, are reported "disconnected" under their own
    names with an overall "unhealthy", as long as the database ping itself
    did not raise; a database ping that raises gives an "unhealthy"
    snapshot whose mapping is empty. *)
Theorem health_check_reports_disconnected (g : globals) (env : environment) (w : world) :
  (forall d e,
      is_Some (db g) -> env DbHealthCheck = Completes d (Raises e) ->
      exists h w', run env (health_check g) w = (Value h, w')
                   /\ status h = "unhealthy" /\ services h = ∅)
  /\ (forall h w' d v,
         run env (health_check g) w = (Value h, w') ->
         is_Some (db g) -> env DbHealthCheck = Completes d (Returns v) -> truthy v = false ->
         services h !! "database" = Some "disconnected" /\ status h = "unhealthy")
  /\ (forall h w' d e,
         run env (health_check g) w = (Value h, w') ->
         is_Some (redis_client g) -> env RedisPing = Completes d (Raises e) ->
         db g = None \/ (exists d' v, env DbHealthCheck = Completes d' (Returns v)) ->
         services h !! "redis" = Some "disconnected" /\ status h = "unhealthy").
Proof.
  split; [|split].
  - intros d e [x Hx] He. unfold health_check. rewrite Hx. cbn. rewrite He. cbn.
    eexists _, _. split; [reflexivity | split; reflexivity].
  - intros h w' d v. health_cases g env; intros Hrun [x Hx] Hv Hf;
      try discriminate; try congruence; simplify_eq; cbn;
      (split; [by simplify_map_eq | reflexivity]).
  - intros h w' d e. health_cases g env; intros Hrun [x Hx] He Hdb';
      try discriminate; try (destruct Hdb' as [?|(? & ? & ?)]; discriminate);
      simplify_eq; cbn; (split; [by simplify_map_eq | reflexivity]).
Qed.

Lemma health_check_reports_disconnected_witness :
  (exists h w',
      run (Scenario.pings (Completes 3 (Raises Scenario.refused)) (Completes 1 Scenario.up))
          (health_check Scenario.serving) fresh = (Value h, w')
      /\ status h = "unhealthy" /\ services h = ∅)
  /\ (forall h w',
         run (Scenario.pings (Completes 3 (Returns (PyBool false)))
                             (Completes 1 (Raises (TimeoutError "timed out"))))
             (health_check Scenario.serving) fresh = (Value h, w') ->
         (services h !! "database" = Some "disconnected" /\ status h = "unhealthy")
         /\ (services h !! "redis" = Some "disconnected" /\ status h = "unhealthy")).
Proof.
  split.
  - apply (health_check_reports_disconnected Scenario.serving
             (Scenario.pings (Completes 3 (Raises Scenario.refused)) (Completes 1 Scenario.up))
             fresh) with (d := 3%N) (e := Scenario.refused).
    + cbn. eauto.
    + reflexivity.
  - intros h w' Hrun.
    destruct (health_check_reports_disconnected Scenario.serving
                (Scenario.pings (Completes 3 (Returns (PyBool false)))
                                (Completes 1 (Raises (TimeoutError "timed out"))))
                fresh) as (_ & Hdb & Hredis).
    split.
    + apply (Hdb h w' 3%N (PyBool false) Hrun); [cbn; eauto | reflexivity | reflexivity].
    + apply (Hredis h w' 1%N (TimeoutError "timed out") Hrun);
        [cbn; eauto | reflexivity | right; eexists _, _; reflexivity].
Defined.

(** C4: the overall status is "healthy" exactly when the snapshot reports
    both the database and redis "connected", which is exactly when the
    database handle is set and its ping returned a truthy value and the
    redis ping returned (a redis client that is not set is not pinged and
    counts as connected); globals that differ only in the three service
    objects get the same overall status. *)
Theorem health_check_healthy_iff (g : globals) (env : environment) (w : world)
    (h : HealthResponse) (w' : world) :
  run env (health_check g) w = (Value h, w') ->
  (status h = "healthy" <->
   services h !! "database" = Some "connected" /\ services h !! "redis" = Some "connected")
  /\ (status h = "healthy" <->
      (is_Some (db g)
       /\ exists d v, env DbHealthCheck = Completes d (Returns v) /\ truthy v = true)
      /\ (redis_client g = None \/ exists d v, env RedisPing = Completes d (Returns v)))
  /\ (forall a p r h2 w2,
         run env (health_check {| db := db g; redis_client := redis_client g;
                                  analytics_service := a; prediction_service := p;
                                  report_service := r |}) w = (Value h2, w2) ->
         status h2 = status h).
Proof.
  intros Hrun.
  assert (Hreported :
            status h = "healthy" <->
            services h !! "database" = Some "connected"
            /\ services h !! "redis" = Some "connected").
  { revert Hrun. health_cases g env; intros Hrun; try discriminate; simplify_eq; cbn;
      (split; [intros ?; try discriminate; by simplify_map_eq
              | intros [? ?]; by simplify_map_eq]). }
  assert (Hpings :
            status h = "healthy" <->
            (is_Some (db g)
             /\ exists d v, env DbHealthCheck = Completes d (Returns v) /\ truthy v = true)
            /\ (redis_client g = None \/ exists d v, env RedisPing = Completes d (Returns v))).
  { revert Hrun. health_cases g env; intros Hrun; try discriminate; simplify_eq; cbn;
      (split;
       [ intros Hs; try discriminate;
         (split; [split; [eauto | eauto]| eauto])
       | intros [[[? ?] (? & ? & ? & ?)] [?|(? & ? & ?)]];
         try discriminate; try congruence; try reflexivity ]). }
  split; [exact Hreported|]. split; [exact Hpings|].
  clear Hreported Hpings. revert Hrun.
  destruct g as [gd gr ga gp gs]; cbn [db redis_client].
  unfold health_check; cbn [db redis_client analytics_service prediction_service report_service].
  destruct gd as [?|], gr as [?|];
    destruct (env DbHealthCheck) as [d1 [v1|e1]|] eqn:Hping;
    destruct (env RedisPing) as [d2 [v2|e2]|] eqn:Hpong;
    cbn; rewrite ?Hping; cbn;
    try (destruct (truthy v1) eqn:Htruthy; cbn);
    rewrite ?Hpong; cbn;
    intros Hrun; try discriminate; simplify_eq; cbn;
    intros sa sp sr h2 w2 Hrun2; simplify_eq; reflexivity.
Qed.

Lemma health_check_healthy_iff_witness :
  (exists h w',
      run (Scenario.pings (Completes 3 Scenario.up) (Completes 1 Scenario.up))
          (health_check Scenario.serving) fresh = (Value h, w')
      /\ status h = "healthy"
      /\ services h !! "database" = Some "connected"
      /\ services h !! "redis" = Some "connected")
  /\ (forall h w',
         run (Scenario.pings (Completes 3 (Returns (PyBool false))) (Completes 1 Scenario.up))
             (health_check Scenario.serving) fresh = (Value h, w') ->
         status h <> "healthy").
Proof.
  split.
  - eexists _, _. split; [reflexivity|].
    pose proof (health_check_healthy_iff Scenario.serving
                  (Scenario.pings (Completes 3 Scenario.up) (Completes 1 Scenario.up))
                  fresh _ _ eq_refl) as (Hreported & Hpings & _).
    split; [reflexivity|]. apply Hreported. apply Hpings.
    split; [split; [cbn; eauto | eexists _, _; split; reflexivity]
           | right; eexists _, _; reflexivity].
  - intros h w' Hrun Hhealthy.
    pose proof (health_check_healthy_iff Scenario.serving
                  (Scenario.pings (Completes 3 (Returns (PyBool false)))
                                  (Completes 1 Scenario.up))
                  fresh h w' Hrun) as (_ & Hpings & _).
    apply Hpings in Hhealthy as [[_ (d & v & Hping & Htruthy)] _].
    cbn in Hping. by simplify_eq.
Defined.

(** C3, as stated, fails: with two pings that each answer after 2 units of
    time, so within a timeout of 2 per dependency, the query takes 4; and a
    query whose pings both hang never returns, whatever the timeout. *)
Lemma health_check_latency_counterexample :
  (exists h w',
      run (Scenario.pings (Completes 2 Scenario.up) (Completes 2 Scenario.up))
          (health_check Scenario.serving) fresh = (Value h, w')
      /\ clock w' = 4%N /\ (N.max 2 2 < clock w' - clock fresh)%N)
  /\ (exists w',
         run (Scenario.pings Hangs Hangs) (health_check Scenario.serving) fresh = (Stuck, w')).
Proof.
  split.
  - eexists _, _. split; [reflexivity|]. cbn. split; [reflexivity | lia].
  - eexists. reflexivity.
Qed.

(** C3, amended: [health_check] awaits the database ping and then the
    redis ping, one after the other and with no timeout.  When both answer
    its latency is the sum of theirs; when the database ping raises it is
    the latency of that ping; and when a ping it awaits never ends, neither
    does the query. *)
Theorem health_check_latency_is_sum (g : globals) (env : environment) (w : world) :
  is_Some (db g) -> is_Some (redis_client g) ->
  (forall d1 v d2 o,
      env DbHealthCheck = Completes d1 (Returns v) -> env RedisPing = Completes d2 o ->
      exists h w', run env (health_check g) w = (Value h, w')
                   /\ clock w' = (clock w + d1 + d2)%N
                   /\ calls (journal w') = (calls (journal w) ++ [DbHealthCheck; RedisPing])%list)
  /\ (forall d1 e,
         env DbHealthCheck = Completes d1 (Raises e) ->
         exists h w', run env (health_check g) w = (Value h, w')
                      /\ clock w' = (clock w + d1)%N
                      /\ calls (journal w') = (calls (journal w) ++ [DbHealthCheck])%list)
  /\ (env DbHealthCheck = Hangs
      \/ (exists d1 v, env DbHealthCheck = Completes d1 (Returns v)) /\ env RedisPing = Hangs ->
      exists w', run env (health_check g) w = (Stuck, w')).
Proof.
  intros [x Hx] [y Hy]. unfold health_check. rewrite Hx, Hy.
  split; [|split].
  - intros d1 v d2 o Hping Hpong. cbn. rewrite Hping. cbn.
    destruct (truthy v), o as [v2|e2]; cbn; rewrite Hpong; cbn;
      (eexists _, _; split; [reflexivity|]; cbn; split; [lia|]);
      unfold calls; rewrite !omap_app; cbn; rewrite !app_nil_r, <- app_assoc; reflexivity.
  - intros d1 e Hping. cbn. rewrite Hping. cbn.
    eexists _, _; split; [reflexivity|]; cbn; split; [lia|].
    unfold calls; rewrite !omap_app; cbn; rewrite !app_nil_r; reflexivity.
  - intros [Hping | [(d1 & v & Hping) Hpong]]; cbn; rewrite Hping; cbn; [eauto|].
    destruct (truthy v); cbn; rewrite Hpong; cbn; eauto.
Qed.

Lemma health_check_latency_is_sum_witness :
  exists h w',
    run (Scenario.pings (Completes 2000 Scenario.up) (Completes 5 Scenario.up))
        (health_check Scenario.serving) fresh = (Value h, w')
    /\ clock w' = (clock fresh + 2000 + 5)%N
    /\ calls (journal w') = (calls (journal fresh) ++ [DbHealthCheck; RedisPing])%list.
Proof.
  assert (Hdb : is_Some (db Scenario.serving)) by (cbn; eauto).
  assert (Hredis : is_Some (redis_client Scenario.serving)) by (cbn; eauto).
  destruct (health_check_latency_is_sum Scenario.serving
              (Scenario.pings (Completes 2000 Scenario.up) (Completes 5 Scenario.up))
              fresh Hdb Hredis) as (Hsum & _ & _).
  apply (Hsum 2000%N (PyBool true) 5%N Scenario.up); reflexivity.
Defined.

End Health.

(** ** Shutdown *)

Section Shutdown.
Import Main.

(** C5, as stated, fails on its second half: when closing redis raises,
    the database is never disconnected and the error leaves [lifespan]. *)
Lemma lifespan_shutdown_failure_counterexample :
  exists w',
    run (Scenario.disconnects (Raises Scenario.refused) (Returns PyNone))
        (lifespan_shutdown Scenario.serving) fresh = (Error Scenario.refused, w')
    /\ calls (journal w') = [RedisClose]
    /\ Logged ERROR (str Scenario.refused) ∉ journal w'.
Proof.
  eexists. split; [reflexivity|]. cbn. split; [reflexivity|].
  intros Hin. repeat (apply elem_of_cons in Hin as [Hin|Hin]; [discriminate|]).
  by apply elem_of_nil in Hin.
Qed.

(** C5, amended: startup reaches the database and then redis; a shutdown
    that completes closes redis and then disconnects the database.  An
    exception raised by either disconnect leaves the shutdown sequence, and
    one raised by the redis close does so before the database disconnect
    is attempted. *)
Theorem lifespan_shutdown_order (settings : Settings) (g : globals)
    (env : environment) (w : world) :
  is_Some (db g) -> is_Some (redis_client g) ->
  (forall gs ws, run env (lifespan_startup settings) w = (Value gs, ws) ->
                 calls (journal ws) = (calls (journal w) ++ [DbConnect; RedisPing])%list)
  /\ (forall d1 v1 d2 v2,
         env RedisClose = Completes d1 (Returns v1) ->
         env DbDisconnect = Completes d2 (Returns v2) ->
         exists ws, run env (lifespan_shutdown g) w = (Value tt, ws)
                    /\ calls (journal ws) = (calls (journal w) ++ [RedisClose; DbDisconnect])%list)
  /\ (forall d1 e,
         env RedisClose = Completes d1 (Raises e) ->
         exists ws, run env (lifespan_shutdown g) w = (Error e, ws)
                    /\ calls (journal ws) = (calls (journal w) ++ [RedisClose])%list)
  /\ (forall d1 v1 d2 e,
         env RedisClose = Completes d1 (Returns v1) ->
         env DbDisconnect = Completes d2 (Raises e) ->
         exists ws, run env (lifespan_shutdown g) w = (Error e, ws)).
Proof.
  intros [x Hx] [y Hy]. repeat split.
  - intros gs ws. unfold lifespan_startup. cbn.
    destruct (env DbConnect) as [d1 [v1|e1]|]; cbn; try discriminate.
    destruct (env RedisPing) as [d2 [v2|e2]|]; cbn; try discriminate.
    intros Hrun. simplify_eq. cbn.
    unfold calls; rewrite !omap_app; cbn; rewrite !app_nil_r, <- app_assoc; reflexivity.
  - intros d1 v1 d2 v2 Hclose Hdisc. unfold lifespan_shutdown. rewrite Hx, Hy. cbn.
    rewrite Hclose. cbn. rewrite Hdisc. cbn.
    eexists; split; [reflexivity|]. cbn.
    unfold calls; rewrite !omap_app; cbn; rewrite !app_nil_r, <- app_assoc; reflexivity.
  - intros d1 e Hclose. unfold lifespan_shutdown. rewrite Hx, Hy. cbn.
    rewrite Hclose. cbn.
    eexists; split; [reflexivity|]. cbn.
    unfold calls; rewrite !omap_app; cbn; rewrite !app_nil_r; reflexivity.
  - intros d1 v1 d2 e Hclose Hdisc. unfold lifespan_shutdown. rewrite Hx, Hy. cbn.
    rewrite Hclose. cbn. rewrite Hdisc. cbn. eauto.
Qed.

Lemma lifespan_shutdown_order_witness :
  exists ws,
    run (Scenario.disconnects (Returns PyNone) (Returns PyNone))
        (lifespan_shutdown Scenario.serving) fresh = (Value tt, ws)
    /\ calls (journal ws) = (calls (journal fresh) ++ [RedisClose; DbDisconnect])%list.
Proof.
  assert (Hdb : is_Some (db Scenario.serving)) by (cbn; eauto).
  assert (Hredis : is_Some (redis_client Scenario.serving)) by (cbn; eauto).
  destruct (lifespan_shutdown_order
              {| database_url := "postgresql://analytics"; redis_url := "redis://cache" |}
              Scenario.serving
              (Scenario.disconnects (Returns PyNone) (Returns PyNone))
              fresh Hdb Hredis) as (_ & Hok & _ & _).
  apply (Hok 0%N PyNone 0%N PyNone); reflexivity.
Defined.

End Shutdown.

(** ** Routes *)

Section Routes.
Import Main.

(** C9: a request to a service-backed route that arrives while the global
    it depends on is still [None] is answered 503 "... service not
    available", and nothing of the endpoint runs: no counter, no log, no
    call, the world is as it was. *)
Theorem app_unavailable_when_service_missing (g : globals) (rq : request)
    (env : environment) (w : world) :
  service_present g rq = false ->
  run env (app g rq) w =
  (Value {| status_code := 503;
            content := PyDict [("detail",
                                PyStr (service_label rq +:+ " service not available"))] |},
   w).
Proof.
  destruct g as [gd gr [a|] [p|] [r|]], rq; cbn; intros Hmissing;
    try discriminate; reflexivity.
Qed.

Lemma app_unavailable_when_service_missing_witness :
  run Scenario.no_such_task (app unset (GET_analytics_reports_status "report-1")) fresh =
  (Value {| status_code := 503;
            content := PyDict [("detail", PyStr "Report service not available")] |},
   fresh).
Proof.
  apply (app_unavailable_when_service_missing unset
           (GET_analytics_reports_status "report-1") Scenario.no_such_task fresh).
  reflexivity.
Defined.

(** C6, as stated, fails: a report service that raises a 404 for an id it
    does not know makes the status route answer 500. *)
Lemma get_report_status_not_found_counterexample :
  exists r w',
    run Scenario.no_such_task
        (app Scenario.serving (GET_analytics_reports_status "never-submitted")) fresh
    = (Value r, w')
    /\ status_code r = 500%Z /\ status_code r <> 404%Z.
Proof.
  eexists _, _. split; [reflexivity|]. cbn. split; [reflexivity | discriminate].
Qed.

(** C6, amended: the status route answers 200, 500 or 503 and nothing
    else; whatever exception the report service raises for the id, a
    not-found error included, comes out as a 500 whose detail is the text of
    the exception. *)
Theorem get_report_status_answers (g : globals) (task_id : string)
    (env : environment) (w : world) :
  match (run env (app g (GET_analytics_reports_status task_id)) w).1 with
  | Value resp =>
      (status_code resp = 200 \/ status_code resp = 500 \/ status_code resp = 503)%Z
  | Error _ => False
  | Stuck => env (GetReportStatus task_id) = Hangs
  end
  /\ (forall d e,
         is_Some (report_service g) ->
         env (GetReportStatus task_id) = Completes d (Raises e) ->
         exists w',
           run env (app g (GET_analytics_reports_status task_id)) w =
           (Value {| status_code := 500; content := PyDict [("detail", PyStr (str e))] |}, w')).
Proof.
  split.
  - unfold app, respond, Depends, get_report_service.
    destruct (report_service g) as [s|]; cbn; [|auto].
    destruct (env (GetReportStatus task_id)) as [d [v|e]|] eqn:Hcall; cbn; auto.
  - intros d e [s Hs] Hcall.
    unfold app, respond, Depends, get_report_service.
    rewrite Hs. cbn. rewrite Hcall. cbn. eauto.
Qed.

Lemma get_report_status_answers_witness :
  exists w',
    run Scenario.no_such_task
        (app Scenario.serving (GET_analytics_reports_status "never-submitted")) fresh =
    (Value {| status_code := 500;
              content := PyDict [("detail", PyStr "404: Task not found")] |}, w').
Proof.
  destruct (get_report_status_answers Scenario.serving "never-submitted"
              Scenario.no_such_task fresh) as [_ Hraise].
  apply (Hraise 1%N (HTTPException 404 "Task not found")).
  - cbn. eauto.
  - reflexivity.
Defined.

End Routes.

(** ** The container probe *)

Section Probe.
Import HealthCheck.

Lemma elapsed_since (a d : N) : (a + d - a = d)%N.
Proof. lia. Qed.

Lemma py_eq_int_200 (v : pyval) : py_eq_int v 200 = true <-> v = PyInt 200.
Proof.
  destruct v as [|[]|z| | |]; cbn; split; try discriminate; intros H.
  - apply Z.eqb_eq in H. by subst.
  - by simplify_eq.
Qed.

Lemma py_eq_str_healthy (v : pyval) : py_eq_str v "healthy" = true <-> v = PyStr "healthy".
Proof.
  destruct v as [| | |s| |]; cbn; split; try discriminate; intros H.
  - apply String.eqb_eq in H. by subst.
  - by simplify_eq.
Qed.

(** How a run of the probe ends does not depend on the world it starts
    in. *)
Lemma perform_health_check_result (cfg : Config) (env : environment) (w w2 : world) :
  (run env (perform_health_check cfg) w).1 = (run env (perform_health_check cfg) w2).1.
Proof.
  unfold perform_health_check. cbn.
  destruct (env (SessionGet (health_url cfg))) as [d1 [v1|e1]|]; cbn; [| |done].
  - destruct (py_eq_int v1 200); cbn; [|done].
    destruct (env ResponseJson) as [d2 [data|e2]|]; cbn; [| |done].
    + destruct data as [| | | | |items]; cbn; try done.
      by destruct (py_eq_str (default PyNone (assoc "status" items)) "healthy").
    + by destruct e2.
  - by destruct e1.
Qed.

Lemma perform_health_check_returns (cfg : Config) (env : environment) (w : world) :
  (exists b w', run env (perform_health_check cfg) w = (Value b, w')
                /\ (b = true <-> healthy_reply cfg env))
  \/ (exists w', run env (perform_health_check cfg) w = (Stuck, w')
                 /\ (env (SessionGet (health_url cfg)) = Hangs \/ env ResponseJson = Hangs)).
Proof.
  assert (Hno : forall P : Prop, (P -> False) -> false = true <-> P)
    by (intros P HP; split; [discriminate | intros HP'; destruct (HP HP')]).
  unfold perform_health_check, healthy_reply. cbn.
  destruct (env (SessionGet (health_url cfg))) as [d1 [v1|e1]|] eqn:Hget; cbn.
  - destruct (py_eq_int v1 200) eqn:Hv1; cbn.
    + apply py_eq_int_200 in Hv1 as ->.
      destruct (env ResponseJson) as [d2 [data|e2]|] eqn:Hjson; cbn.
      * left.
        destruct data as [| | | | |items]; cbn;
          try (eexists _, _; split; [reflexivity|]; apply Hno;
               intros (? & ? & ? & ? & ? & ?); congruence).
        destruct (py_eq_str (default PyNone (assoc "status" items)) "healthy")
          eqn:Hst; cbn; eexists _, _; (split; [reflexivity|]).
        -- apply py_eq_str_healthy in Hst.
           split; [intros _|reflexivity].
           exists d1, d2, items. repeat split; auto.
           destruct (assoc "status" items); cbn in Hst; congruence.
        -- apply Hno. intros (? & ? & ? & ? & Hj & Ha).
           simplify_eq. rewrite Ha in Hst. discriminate.
      * left. destruct e2; cbn;
          (eexists _, _; split; [reflexivity|]; apply Hno;
           intros (? & ? & ? & ? & ? & ?); congruence).
      * right. eauto.
    + left. eexists _, _; split; [reflexivity|]; apply Hno.
      intros (? & ? & ? & ? & ? & ?). by simplify_eq.
  - left. destruct e1; cbn;
      (eexists _, _; split; [reflexivity|]; apply Hno;
       intros (? & ? & ? & ? & ? & ?); congruence).
  - right. eauto.
Qed.

(** C10: [perform_health_check] never raises.  Whenever the session's
    awaits end, by an answer, a timeout or any other exception, it returns,
    and what it returns is [True] exactly when the response had status 200
    and a body whose "status" is "healthy"; the exit status of the script
    is then 0 when it returned [True] and 1 when it returned [False].  The
    probe fails to return only when an await of the session never ends,
    and then the script does not exit. *)
Theorem perform_health_check_decides_exit (cfg : Config) (env : environment) (w : world) :
  (exists b w1 w2,
      run env (perform_health_check cfg) w = (Value b, w1)
      /\ (b = true <-> healthy_reply cfg env)
      /\ run env (main cfg) w = (Value (if b then 0 else 1)%Z, w2))
  \/ (exists w1 w2,
         run env (perform_health_check cfg) w = (Stuck, w1)
         /\ run env (main cfg) w = (Stuck, w2)
         /\ (env (SessionGet (health_url cfg)) = Hangs \/ env ResponseJson = Hangs)).
Proof.
  assert (Hmain : forall r,
             (run env (perform_health_check cfg) w).1 = r ->
             exists w2,
               run env (main cfg) w
               = (match r with
                  | Value b => Value (if b then 0 else 1)%Z
                  | Error e => Error e
                  | Stuck => Stuck
                  end, w2)).
  { intros r Hr. unfold main. cbn -[perform_health_check].
    match goal with
    | |- context [run env (perform_health_check cfg ≫= ?f) ?wm] =>
        change (run env (perform_health_check cfg ≫= f) wm)
          with (run env (bind (perform_health_check cfg) f) wm);
        rewrite run_bind;
        rewrite (perform_health_check_result cfg env w wm) in Hr;
        destruct (run env (perform_health_check cfg) wm) as [r' wm'];
        cbn in Hr; subst r'
    end.
    destruct r as [[]| |]; cbn; eauto. }
  destruct (perform_health_check_returns cfg env w)
    as [(b & w1 & Hrun & Hiff) | (w1 & Hrun & Hhang)].
  - left. destruct (Hmain (Value b)) as [w2 Hw2]; [by rewrite Hrun|].
    exists b, w1, w2. by repeat split; try apply Hiff.
  - right. destruct (Hmain Stuck) as [w2 Hw2]; [by rewrite Hrun|].
    exists w1, w2. by repeat split.
Qed.

Lemma perform_health_check_decides_exit_witness :
  exists w1 w2,
    run Scenario.healthy_service (perform_health_check Scenario.probe) fresh = (Value true, w1)
    /\ run Scenario.healthy_service (main Scenario.probe) fresh = (Value 0%Z, w2).
Proof.
  destruct (perform_health_check_decides_exit Scenario.probe Scenario.healthy_service fresh)
    as [(b & w1 & w2 & Hrun & Hiff & Hmain) | (w1 & w2 & Hrun & _)];
    [|discriminate].
  assert (b = true) as ->.
  { apply Hiff. exists 1%N, 1%N, [("status", PyStr "healthy")]. by repeat split. }
  exists w1, w2. by split.
Defined.

End Probe.

(** ** Background tasks *)

Section Background.
Import Main EventLoop.

Lemma in_flight_app j (evs evs' : list event) :
  in_flight j (evs ++ evs') = (in_flight j evs + in_flight j evs')%Z.
Proof. unfold in_flight. rewrite !filter_app, !length_app. lia. Qed.

Lemma task_update_eq j r s : task j (update j r s) = r.1.
Proof. by destruct j. Qed.

Lemma task_update_ne j j' r s : j <> j' -> task j (update j' r s) = task j s.
Proof. by destruct j, j'. Qed.

Lemma seen_update j r s : seen (update j r s) = r.2.
Proof. by destruct j. Qed.

(** Entering the body: either the service is set and the task suspends on
    its action, or it is not and the task goes straight to sleep. *)
Lemma resume_body g j w :
  (service_set g j = true
   /\ exists k,
       resume (body g j) w
       = (OnCall (action j) k, record (Called (action j)) (records (prologue j) w))
       /\ forall o w', resume (k o) w'
                       = (OnTimer (clock w' + interval j) (Ret tt), records (epilogue j o) w'))
  \/ (service_set g j = false
      /\ exists evs, resume (body g j) w = (OnTimer (clock w + interval j) (Ret tt), records evs w)
                     /\ in_flight model_training evs = 0%Z
                     /\ in_flight metrics_collection evs = 0%Z).
Proof.
  destruct j; cbn; unfold background_model_training, background_metrics_collection.
  - destruct (prediction_service g) as [p|]; cbn.
    + left. split; [done|]. eexists. split; [reflexivity|].
      intros [v|e] w'; reflexivity.
    + right. split; [done|]. eexists [_; _]. split; [reflexivity|]. done.
  - destruct (analytics_service g) as [a|]; cbn.
    + left. split; [done|]. eexists. split; [reflexivity|].
      intros [v|e] w'; reflexivity.
    + right. split; [done|]. exists []. split; [reflexivity|]. done.
Qed.

Lemma journal_records evs w : journal (records evs w) = (journal w ++ evs)%list.
Proof.
  revert w; induction evs as [|ev evs IH]; intros w; cbn.
  - by rewrite app_nil_r.
  - unfold records in IH. rewrite IH. cbn. by rewrite <- app_assoc.
Qed.

Lemma clock_records evs w : clock (records evs w) = clock w.
Proof.
  revert w; induction evs as [|ev evs IH]; intros w; cbn; [done|].
  unfold records in IH. by rewrite IH.
Qed.

Lemma in_flight_epilogue j j' o : in_flight j (epilogue j' o) = 0%Z.
Proof. by destruct j, j', o. Qed.

Lemma in_flight_prologue j j' : in_flight j (prologue j') = 0%Z.
Proof. by destruct j, j'. Qed.

Lemma in_flight_called j j' :
  in_flight j [Called (action j')] = if decide (j = j') then 1%Z else 0%Z.
Proof. by destruct j, j'. Qed.

Lemma in_flight_answered j j' o :
  in_flight j [Answered (action j') o] = if decide (j = j') then (-1)%Z else 0%Z.
Proof. by destruct j, j'. Qed.

Lemma invariant_created g w0 : invariant g w0 (created w0).
Proof. intros j. split; [destruct j; constructor | destruct j; cbn; lia]. Qed.

(** Every turn of the loop keeps each task at one of its three places and
    the journal in step with them. *)
Lemma invariant_step g w0 s j wk dt s' :
  invariant g w0 s -> step g j wk dt s = Some s' -> invariant g w0 s'.
Proof.
  intros Hinv Hstep j0. unfold step in Hstep.
  destruct (Hinv j) as [Hj Hfj]. destruct (Hinv j0) as [Hj0 Hfj0].
  inversion Hj as [Hst | k Hset Hk Hst | due Hst];
    rewrite <- Hst in Hstep; rewrite <- Hst in Hfj; destruct wk; try discriminate.
  - (* the body is entered *)
    simplify_eq.
    destruct (resume_body g j (tick dt (seen s)))
      as [(Hset & k & -> & Hk) | (Hset & evs & -> & Hevs1 & Hevs2)].
    + destruct (decide (j0 = j)) as [->|Hne].
      * rewrite task_update_eq, seen_update. cbn [fst snd]. split; [by constructor|].
        cbn. rewrite journal_records. cbn.
        rewrite !in_flight_app, in_flight_prologue, in_flight_called, decide_True by done.
        cbn in Hfj. lia.
      * rewrite task_update_ne, seen_update by done. cbn [fst snd]. split; [done|].
        cbn. rewrite journal_records. cbn.
        rewrite !in_flight_app, in_flight_prologue, in_flight_called, decide_False by done.
        lia.
    + destruct (decide (j0 = j)) as [->|Hne].
      * rewrite task_update_eq, seen_update. cbn [fst snd]. split; [by constructor|].
        rewrite journal_records. cbn.
        rewrite in_flight_app. cbn in Hfj. destruct j; lia.
      * rewrite task_update_ne, seen_update by done. cbn [fst snd]. split; [done|].
        rewrite journal_records. cbn.
        rewrite in_flight_app. destruct j0; lia.
  - (* the action has ended *)
    simplify_eq. rewrite Hk.
    destruct (decide (j0 = j)) as [->|Hne].
    + rewrite task_update_eq, seen_update. cbn [fst snd]. split; [by constructor|].
      rewrite journal_records. cbn.
      rewrite !in_flight_app, in_flight_epilogue, in_flight_answered, decide_True by done.
      cbn in Hfj. lia.
    + rewrite task_update_ne, seen_update by done. cbn [fst snd]. split; [done|].
      rewrite journal_records. cbn.
      rewrite !in_flight_app, in_flight_epilogue, in_flight_answered, decide_False by done.
      lia.
  - (* the timer has fired *)
    destruct (due <=? clock (tick dt (seen s)))%N; [|discriminate]. simplify_eq.
    destruct (decide (j0 = j)) as [->|Hne].
    + rewrite task_update_eq, seen_update. cbn. split; [by constructor|].
      cbn in Hfj. lia.
    + rewrite task_update_ne, seen_update by done. cbn. split; [done|]. lia.
Qed.

Lemma reachable_invariant g w0 s : reachable g w0 s -> invariant g w0 s.
Proof.
  induction 1 as [|s j wk dt s' _ IH Hstep];
    [apply invariant_created | by eapply invariant_step].
Qed.

Lemma exec_reachable g w0 turns s s' :
  reachable g w0 s -> exec g turns s = Some s' -> reachable g w0 s'.
Proof.
  revert s; induction turns as [|[[j wk] dt] rest IH]; intros s Hs Hexec; cbn in Hexec.
  - by simplify_eq.
  - destruct (step g j wk dt s) as [s1|] eqn:Hstep; [|discriminate].
    eapply IH; [|exact Hexec]. by eapply reach_step.
Qed.

Lemma step_start g j s :
  task j s = Runnable ->
  step g j Start 0 s = Some (update j (resume (body g j) (tick 0 (seen s))) s).
Proof. intros H. unfold step. by rewrite H. Qed.

Lemma step_answer g j s c k o dt :
  task j s = OnCall c k ->
  step g j (Answer o) dt s
  = Some (update j (resume (k o) (record (Answered c o) (tick dt (seen s)))) s).
Proof. intros H. unfold step. by rewrite H. Qed.

Lemma step_timer g j s due k dt :
  task j s = OnTimer due k -> (due <= clock (seen s) + dt)%N ->
  step g j Timer dt s = Some (update j (resume k (tick dt (seen s))) s).
Proof.
  intros H Hdue. unfold step. rewrite H. cbn.
  by rewrite (proj2 (N.leb_le _ _) Hdue).
Qed.

(** A task that is where the invariant says can be brought to the head of
    its loop by turns of its own, which leave the other task alone. *)
Lemma to_loop_head g j s :
  parked g j (task j s) ->
  exists turns s1,
    Forall (fun t : job * wakeup * N => t.1.1 = j) turns
    /\ exec g turns s = Some s1
    /\ task j s1 = Runnable
    /\ forall j', j' <> j -> task j' s1 = task j' s.
Proof.
  intros Hp. inversion Hp as [Hst | k Hset Hk Hst | due Hst]; symmetry in Hst.
  - exists [], s. repeat split; auto.
  - eexists [(j, Answer (Returns PyNone), 0%N); (j, Timer, interval j)], _.
    split; [repeat constructor|]. cbn [exec].
    rewrite (step_answer _ _ _ _ _ _ _ Hst), Hk.
    erewrite step_timer;
      [| rewrite task_update_eq; reflexivity
       | rewrite seen_update; cbn [fst snd]; rewrite clock_records; cbn; lia].
    split; [reflexivity|]. split.
    + by rewrite task_update_eq.
    + intros j' Hne. by rewrite !task_update_ne.
  - eexists [(j, Timer, due)], _.
    split; [repeat constructor|]. cbn [exec].
    erewrite step_timer; [| exact Hst | lia].
    split; [reflexivity|]. split.
    + by rewrite task_update_eq.
    + intros j' Hne. by rewrite task_update_ne.
Qed.

(** C7: in every state the event loop can reach, each job has at most one
    execution of its action begun and not yet returned, and a task whose
    action is in flight cannot begin a tick; whatever one job is doing, its
    action in flight included, the other can be woken, brought to the head
    of its loop and begin a new tick, all without the first task moving. *)
Theorem background_jobs_never_overlap (g : globals) (w0 : world) (s : loop_state) :
  reachable g w0 s ->
  (forall j, (0 <= in_flight j (journal (seen s)) - in_flight j (journal w0) <= 1)%Z)
  /\ (forall j c k dt, task j s = OnCall c k -> step g j Start dt s = None)
  /\ (forall j j',
         j <> j' ->
         exists turns s1 s2,
           Forall (fun t : job * wakeup * N => t.1.1 = j') turns
           /\ exec g turns s = Some s1
           /\ step g j' Start 0 s1 = Some s2
           /\ task j s2 = task j s).
Proof.
  intros Hreach. pose proof (reachable_invariant _ _ _ Hreach) as Hinv.
  split; [|split].
  - intros j. destruct (Hinv j) as [_ ->]. destruct (task j s); cbn; lia.
  - intros j c k dt Hst. unfold step. by rewrite Hst.
  - intros j j' Hne. destruct (Hinv j') as [Hp _].
    destruct (to_loop_head g j' s Hp) as (turns & s1 & Hall & Hexec & Hhead & Hother).
    exists turns, s1. eexists. split; [done|]. split; [done|].
    split; [by apply step_start|].
    rewrite task_update_ne by done. by apply Hother.
Qed.

(** C8: no reachable state has a crashed task.  When the action of a job
    raises, the error is logged and the task is asleep on its timer; once
    the timer fires the task is back at the head of its loop and its next
    tick awaits the action again. *)
Theorem background_job_survives_failure (g : globals) (w0 : world) (s : loop_state) :
  reachable g w0 s ->
  (forall j e, task j s <> Crashed e)
  /\ (forall j c k e dt,
         task j s = OnCall c k ->
         exists s1 s2 s3 due k',
           step g j (Answer (Raises e)) dt s = Some s1
           /\ journal (seen s1)
              = (journal (seen s) ++ [Answered c (Raises e); Logged ERROR (failure_message j e)])%list
           /\ task j s1 = OnTimer due (Ret tt)
           /\ step g j Timer (interval j) s1 = Some s2
           /\ step g j Start 0 s2 = Some s3
           /\ task j s3 = OnCall c k'
           /\ journal (seen s3) = (journal (seen s2) ++ prologue j ++ [Called c])%list).
Proof.
  intros Hreach. pose proof (reachable_invariant _ _ _ Hreach) as Hinv. split.
  - intros j e Hst. destruct (Hinv j) as [Hp _]. rewrite Hst in Hp. inversion Hp.
  - intros j c k e dt Hst. destruct (Hinv j) as [Hp _]. rewrite Hst in Hp.
    inversion Hp as [ | k0 Hset Hk [Hc Hk0] | ]; subst.
    destruct (resume_body g j (tick 0 (tick (interval j)
                (records (epilogue j (Raises e))
                   (record (Answered (action j) (Raises e)) (tick dt (seen s)))))))
      as [(_ & k' & Hbody & _) | (Hunset & _)]; [|congruence].
    eexists _, _, _, _, k'.
    split; [by eapply step_answer|]. rewrite Hk.
    split; [rewrite seen_update; cbn [fst snd]; rewrite journal_records; cbn;
            by rewrite <- app_assoc|].
    split; [by rewrite task_update_eq|].
    split; [eapply step_timer;
            [by rewrite task_update_eq
            | rewrite seen_update; cbn [fst snd]; rewrite clock_records; cbn; lia]|].
    cbn [resume].
    split; [apply step_start; by rewrite task_update_eq|].
    rewrite !seen_update. cbn [fst snd]. rewrite Hbody.
    split; [by rewrite task_update_eq|].
    cbn [fst snd]. cbn. rewrite !journal_records. cbn. by rewrite <- !app_assoc.
Qed.

Lemma retraining_reachable : reachable Scenario.serving fresh Scenario.retraining.
Proof.
  apply (exec_reachable _ _ [(model_training, Start, 0%N)] (created fresh));
    [constructor | reflexivity].
Qed.

Lemma background_jobs_never_overlap_witness :
  (0 <= in_flight model_training (journal (seen Scenario.retraining))
        - in_flight model_training (journal fresh) <= 1)%Z
  /\ exists turns s1 s2,
      Forall (fun t : job * wakeup * N => t.1.1 = metrics_collection) turns
      /\ exec Scenario.serving turns Scenario.retraining = Some s1
      /\ step Scenario.serving metrics_collection Start 0 s1 = Some s2
      /\ task model_training s2 = task model_training Scenario.retraining.
Proof.
  destruct (background_jobs_never_overlap Scenario.serving fresh Scenario.retraining
              retraining_reachable) as (Hone & _ & Hfree).
  split; [apply Hone | apply Hfree; discriminate].
Defined.

Lemma background_job_survives_failure_witness :
  exists s1 s2 s3,
    step Scenario.serving model_training (Answer (Raises Scenario.refused)) 7
         Scenario.retraining = Some s1
    /\ journal (seen s1)
       = [Logged INFO "Starting scheduled model training";
          Called RetrainModels;
          Answered RetrainModels (Raises Scenario.refused);
          Logged ERROR "Model training failed: connection refused"]
    /\ step Scenario.serving model_training Timer 86400 s1 = Some s2
    /\ step Scenario.serving model_training Start 0 s2 = Some s3
    /\ journal (seen s3)
       = (journal (seen s2)
            ++ [Logged INFO "Starting scheduled model training"; Called RetrainModels])%list.
Proof.
  destruct (background_job_survives_failure Scenario.serving fresh Scenario.retraining
              retraining_reachable) as [_ Hfail].
  destruct (Hfail model_training RetrainModels _ Scenario.refused 7%N eq_refl)
    as (s1 & s2 & s3 & due & k' & H1 & H2 & _ & H3 & H4 & _ & H5).
  exists s1, s2, s3. repeat split; assumption.
Defined.

End Background.

(** ** Startup *)

Section Startup.
Import Main.

Lemma launched_app (evs evs' : list event) :
  launched (evs ++ evs') = (launched evs ++ launched evs')%list.
Proof. apply omap_app. Qed.

Lemma calls_app (evs evs' : list event) :
  calls (evs ++ evs') = (calls evs ++ calls evs')%list.
Proof. apply omap_app. Qed.

(** X1: startup fails fast.  When connecting the database raises, the
    error leaves [lifespan] with redis never pinged; when the redis ping
    raises, the error leaves it as well; in both cases no background task
    has been created and no metrics server started. *)
Theorem lifespan_startup_fails_fast (settings : Settings) (env : environment) (w : world) :
  (forall d e,
      env DbConnect = Completes d (Raises e) ->
      exists w', run env (lifespan_startup settings) w = (Error e, w')
                 /\ calls (journal w') = (calls (journal w) ++ [DbConnect])%list
                 /\ launched (journal w') = launched (journal w))
  /\ (forall d v d' e,
         env DbConnect = Completes d (Returns v) ->
         env RedisPing = Completes d' (Raises e) ->
         exists w', run env (lifespan_startup settings) w = (Error e, w')
                    /\ calls (journal w') = (calls (journal w) ++ [DbConnect; RedisPing])%list
                    /\ launched (journal w') = launched (journal w)).
Proof.
  split.
  - intros d e Hdb. unfold lifespan_startup. cbn. rewrite Hdb. cbn.
    eexists. split; [reflexivity|]. cbn.
    rewrite !calls_app, !launched_app. cbn. by rewrite !app_nil_r.
  - intros d v d' e Hdb Hredis. unfold lifespan_startup. cbn. rewrite Hdb. cbn.
    rewrite Hredis. cbn.
    eexists. split; [reflexivity|]. cbn.
    rewrite !calls_app, !launched_app. cbn. by rewrite !app_nil_r, <- !app_assoc.
Qed.

Lemma lifespan_startup_fails_fast_witness :
  exists w',
    run (fun c => match c with
                  | DbConnect => Completes 2 (Raises Scenario.refused)
                  | _ => Completes 0 (Returns PyNone)
                  end)
        (lifespan_startup {| database_url := "postgresql://analytics";
                             redis_url := "redis://cache" |}) fresh
    = (Error Scenario.refused, w')
    /\ calls (journal w') = (calls (journal fresh) ++ [DbConnect])%list
    /\ launched (journal w') = launched (journal fresh).
Proof.
  eapply (proj1 (lifespan_startup_fails_fast _ _ fresh)). reflexivity.
Defined.

(** X2: a startup that completes has set all five globals and, after both
    connections, created the two background tasks and started the metrics
    server on port 8001; from then on no service-backed route answers
    503. *)
Theorem lifespan_startup_makes_routes_available (settings : Settings)
    (env : environment) (w : world) (gs : globals) (ws : world) :
  run env (lifespan_startup settings) w = (Value gs, ws) ->
  is_Some (db gs) /\ is_Some (redis_client gs)
  /\ launched (journal ws)
     = (launched (journal w)
          ++ [inl "background_model_training"; inl "background_metrics_collection";
              inr 8001%Z])%list
  /\ (forall rq, service_present gs rq = true)
  /\ (forall rq env' w' resp w'',
         run env' (app gs rq) w' = (Value resp, w'') -> status_code resp <> 503%Z).
Proof.
  unfold lifespan_startup. cbn.
  destruct (env DbConnect) as [d1 [v1|e1]|]; cbn; try discriminate.
  destruct (env RedisPing) as [d2 [v2|e2]|]; cbn; try discriminate.
  intros Hrun. simplify_eq. cbn.
  split; [eauto|]. split; [eauto|]. split.
  { rewrite !launched_app. cbn. by rewrite !app_nil_r, <- !app_assoc. }
  split; [by intros []|].
  intros rq env' w' resp w''.
  destruct rq; cbn;
    match goal with
    | |- context [env' ?c] => destruct (env' c) as [d [v|e]|]
    end; cbn; intros Hrun; simplify_eq; cbn; discriminate.
Qed.

Lemma lifespan_startup_makes_routes_available_witness :
  exists gs ws,
    run Scenario.no_such_task
        (lifespan_startup {| database_url := "postgresql://analytics";
                             redis_url := "redis://cache" |}) fresh = (Value gs, ws)
    /\ forall rq, service_present gs rq = true.
Proof.
  eexists _, _. split; [reflexivity|].
  eapply (lifespan_startup_makes_routes_available _ Scenario.no_such_task fresh).
  reflexivity.
Defined.

End Startup.

(** ** What the routes answer and record *)

Section Answers.
Import Main Route.

Lemma errors_app (evs evs' : list event) :
  errors (evs ++ evs') = (errors evs ++ errors evs')%list.
Proof. apply omap_app. Qed.

Lemma counted_app (evs evs' : list event) :
  counted (evs ++ evs') = (counted evs ++ counted evs')%list.
Proof. apply omap_app. Qed.

Lemma observed_app (evs evs' : list event) :
  observed (evs ++ evs') = (observed evs ++ observed evs')%list.
Proof. apply omap_app. Qed.

(** Splits a request along its route, the globals along the services that
    are set, and the service call along the way it ends. *)
Ltac route_cases g rq env :=
  destruct g as [gd gr [sa|] [sp|] [sr|]], rq; cbn;
  try match goal with
      | |- context [env ?c] => destruct (env c) as [d0 [v0|e0]|] eqn:Hcall0
      end; cbn.

(** X3: every service-backed route answers 200, 500 or 503, whatever its
    service does; no exception leaves the application, a request stays
    unanswered only while its service call hangs, and none of the errors
    logged comes from [global_exception_handler]. *)
Theorem app_answers_and_never_unhandled (g : globals) (rq : request)
    (env : environment) (w : world) :
  match (run env (app g rq) w).1 with
  | Value resp =>
      (status_code resp = 200 \/ status_code resp = 500 \/ status_code resp = 503)%Z
  | Error _ => False
  | Stuck => env (service_call rq) = Hangs
  end
  /\ exists msgs,
      errors (journal (run env (app g rq) w).2) = (errors (journal w) ++ msgs)%list
      /\ Forall (fun msg => String.prefix "Unhandled exception: " msg = false) msgs.
Proof.
  route_cases g rq env;
    (split; [auto|]);
    rewrite ?errors_app; cbn; rewrite ?app_nil_r, <- ?app_assoc; cbn;
    first [ by exists []; rewrite ?app_nil_r
          | eexists [_]; split; [reflexivity | by repeat constructor] ].
Qed.

(** X4: when the service of a route raises, the client gets a 500 whose
    detail is the text of the exception, one error is logged that names the
    operation and carries the same text, and the answer comes when the
    service call ends. *)
Theorem app_service_failure (g : globals) (rq : request) (env : environment)
    (w : world) (d : N) (e : exn) :
  service_present g rq = true ->
  env (service_call rq) = Completes d (Raises e) ->
  exists w',
    run env (app g rq) w
    = (Value {| status_code := 500; content := PyDict [("detail", PyStr (str e))] |}, w')
    /\ errors (journal w')
       = (errors (journal w) ++ [operation rq +:+ " failed: " +:+ str e])%list
    /\ clock w' = (clock w + d)%N.
Proof.
  intros Hset Hcall.
  destruct g as [gd gr [sa|] [sp|] [sr|]], rq; cbn in Hset, Hcall; try discriminate;
    cbn; rewrite Hcall; cbn;
    (eexists; split; [reflexivity|]); cbn;
    rewrite ?errors_app; cbn; rewrite ?app_nil_r, <- ?app_assoc; done.
Qed.

Lemma app_service_failure_witness :
  exists w',
    run Scenario.no_such_task
        (app Scenario.serving (GET_analytics_reports_status "report-7")) fresh
    = (Value {| status_code := 500;
                content := PyDict [("detail", PyStr "404: Task not found")] |}, w')
    /\ errors (journal w')
       = (errors (journal fresh) ++ ["Report status check failed: 404: Task not found"])%list
    /\ clock w' = (clock fresh + 1)%N.
Proof.
  apply (app_service_failure Scenario.serving (GET_analytics_reports_status "report-7")
           Scenario.no_such_task fresh 1%N (HTTPException 404 "Task not found"));
    reflexivity.
Defined.

(** X5: when the service of a route returns, the client gets a 200 that
    carries the answer unchanged, as "data" (as "task_id" for the
    executive report, whose status is "accepted"), with the time the call
    ended as timestamp; nothing is logged as an error. *)
Theorem app_service_success (g : globals) (rq : request) (env : environment)
    (w : world) (d : N) (v : pyval) :
  service_present g rq = true ->
  env (service_call rq) = Completes d (Returns v) ->
  exists w',
    run env (app g rq) w
    = (Value {| status_code := 200;
                content :=
                  match rq with
                  | POST_analytics_reports_executive _ =>
                      PyDict [("status", PyStr "accepted"); ("task_id", v);
                              ("message", PyStr "Executive report generation started");
                              ("timestamp", PyStr (isoformat (clock w + d)))]
                  | _ =>
                      PyDict [("status", PyStr "success"); ("data", v);
                              ("timestamp", PyStr (isoformat (clock w + d)))]
                  end |}, w')
    /\ errors (journal w') = errors (journal w).
Proof.
  intros Hset Hcall.
  destruct g as [gd gr [sa|] [sp|] [sr|]], rq; cbn in Hset, Hcall; try discriminate;
    cbn; rewrite Hcall; cbn;
    (eexists; split; [reflexivity|]); cbn;
    rewrite ?errors_app; cbn; rewrite ?app_nil_r; done.
Qed.

Lemma app_service_success_witness :
  exists w',
    run (Scenario.pings Hangs Hangs)
        (app Scenario.serving (GET_analytics_reports_status "report-7")) fresh
    = (Value {| status_code := 200;
                content := PyDict [("status", PyStr "success"); ("data", PyNone);
                                   ("timestamp", PyStr (isoformat (clock fresh + 0)))] |}, w')
    /\ errors (journal w') = errors (journal fresh).
Proof.
  apply (app_service_success Scenario.serving (GET_analytics_reports_status "report-7")
           (Scenario.pings Hangs Hangs) fresh 0%N PyNone);
    reflexivity.
Defined.

(** X6: the two routes that run under the duration histogram observe it
    exactly once per request, when the service call raises as well as when
    it returns, and the value observed is the time the call took; the other
    three routes never observe it. *)
Theorem app_observes_duration (g : globals) (rq : request) (env : environment)
    (w : world) (d : N) (o : outcome) :
  service_present g rq = true ->
  env (service_call rq) = Completes d o ->
  observed (journal (run env (app g rq) w).2)
  = (observed (journal w)
       ++ if timed rq then [("analytics_request_duration_seconds", d)] else [])%list.
Proof.
  intros Hset Hcall.
  destruct g as [gd gr [sa|] [sp|] [sr|]], rq; cbn in Hset, Hcall; try discriminate;
    cbn; rewrite Hcall; destruct o as [v|e]; cbn;
    rewrite ?observed_app; cbn; rewrite ?app_nil_r, ?elapsed_since; done.
Qed.

Lemma app_observes_duration_witness :
  observed (journal (run (fun _ => Completes 40 (Raises Scenario.refused))
                         (app Scenario.serving
                              (POST_analytics_incidents
                                 {| start_date := 0; end_date := 30;
                                    metrics := ["incidents"]; filters := None |}))
                         fresh).2)
  = (observed (journal fresh) ++ [("analytics_request_duration_seconds", 40%N)])%list.
Proof.
  apply (app_observes_duration Scenario.serving
           (POST_analytics_incidents
              {| start_date := 0; end_date := 30; metrics := ["incidents"]; filters := None |})
           (fun _ => Completes 40 (Raises Scenario.refused)) fresh 40%N
           (Raises Scenario.refused));
    reflexivity.
Defined.

(** X7: a request whose service is set is counted before the service is
    called, so it is counted once under its route (and a prediction once
    more under its type) whether the call returns, raises or hangs; polls
    of a report's status are never counted, and a request answered 503 is
    not counted either. *)
Theorem app_counts_requests (g : globals) (rq : request) (env : environment) (w : world) :
  counted (journal (run env (app g rq) w).2)
  = (counted (journal w) ++ if service_present g rq then increments rq else [])%list.
Proof.
  route_cases g rq env;
    rewrite ?counted_app; cbn; rewrite ?app_nil_r, <- ?app_assoc; done.
Qed.

End Answers.

(** ** More on the health endpoint *)

Section Snapshot.
Import Main.

Ltac snapshot_cases g env :=
  unfold health_check;
  destruct (db g) as [?|] eqn:Hdb, (redis_client g) as [?|] eqn:Hredis;
  destruct (env DbHealthCheck) as [d1 [v1|e1]|] eqn:Hping;
  destruct (env RedisPing) as [d2 [v2|e2]|] eqn:Hpong;
  cbn; rewrite ?Hping; cbn;
  try (destruct (truthy v1) eqn:Htruthy; cbn);
  rewrite ?Hpong; cbn.

(** X8: in terms of the pings, the overall status is "healthy" exactly
    when the database handle is set and its ping returned a truthy value,
    and redis either has no client set or its ping returned, whatever it
    returned. *)
Theorem health_check_healthy_pings (g : globals) (env : environment) (w : world)
    (h : HealthResponse) (w' : world) :
  run env (health_check g) w = (Value h, w') ->
  (status h = "healthy" <->
   (is_Some (db g)
    /\ exists d v, env DbHealthCheck = Completes d (Returns v) /\ truthy v = true)
   /\ (redis_client g = None \/ exists d v, env RedisPing = Completes d (Returns v))).
Proof.
  snapshot_cases g env; intros Hrun; try discriminate; simplify_eq; cbn;
    (split;
     [ intros Hs; try discriminate;
       (split; [split; [eauto | eauto]| eauto])
     | intros [[[? ?] (? & ? & ? & ?)] [?|(? & ? & ?)]];
       try discriminate; try congruence; try reflexivity ]).
Qed.

Lemma health_check_healthy_pings_witness :
  exists h w',
    run (Scenario.pings (Completes 3 (Returns (PyInt 1))) (Completes 1 (Returns (PyBool false))))
        (health_check Scenario.serving) fresh = (Value h, w')
    /\ status h = "healthy".
Proof.
  eexists _, _. split; [reflexivity|].
  apply (health_check_healthy_pings Scenario.serving
           (Scenario.pings (Completes 3 (Returns (PyInt 1)))
                           (Completes 1 (Returns (PyBool false))))
           fresh _ _ eq_refl).
  split; [split; [cbn; eauto | eexists _, _; split; reflexivity]
         | right; eexists _, _; reflexivity].
Defined.

(** X9: [health_check] pings only the handles that are set.  With no
    database handle the database is reported "disconnected" unpinged; with
    no redis client redis is not pinged either, and the snapshot, unless
    it is the empty one of a failed database ping, reports it
    "connected". *)
Theorem health_check_unset_handles (g : globals) (env : environment) (w : world)
    (h : HealthResponse) (w' : world) :
  run env (health_check g) w = (Value h, w') ->
  exists cs,
    calls (journal w') = (calls (journal w) ++ cs)%list
    /\ (db g = None ->
        (DbHealthCheck ∉ cs) /\ services h !! "database" = Some "disconnected")
    /\ (redis_client g = None ->
        (RedisPing ∉ cs) /\ (services h = ∅ \/ services h !! "redis" = Some "connected")).
Proof.
  snapshot_cases g env; intros Hrun; try discriminate; simplify_eq; cbn;
    unfold calls; rewrite ?omap_app; cbn; rewrite ?app_nil_r, <- ?app_assoc; cbn;
    (eexists; split; [first [reflexivity | by rewrite app_nil_r]|]);
    (split; intros ?; try discriminate;
     (split; [ by rewrite ?elem_of_cons, elem_of_nil; intros H'; decompose [or] H'
             | first [by simplify_map_eq | by left | right; by simplify_map_eq] ])).
Qed.

Lemma health_check_unset_handles_witness :
  exists h w' cs,
    run (Scenario.pings Hangs Hangs) (health_check unset) fresh = (Value h, w')
    /\ calls (journal w') = (calls (journal fresh) ++ cs)%list
    /\ ((DbHealthCheck ∉ cs) /\ services h !! "database" = Some "disconnected")
    /\ ((RedisPing ∉ cs) /\ (services h = ∅ \/ services h !! "redis" = Some "connected")).
Proof.
  destruct (health_check_unset_handles unset (Scenario.pings Hangs Hangs) fresh _ _ eq_refl)
    as (cs & Hcs & Hdb & Hredis).
  eexists _, _, cs. split; [reflexivity|]. split; [exact Hcs|].
  split; [apply Hdb | apply Hredis]; reflexivity.
Defined.

(** X10: the mapping of a snapshot is either empty, which happens exactly
    when the database ping raised, or has the five entries "database",
    "redis", "analytics", "prediction" and "reporting", the last three
    saying "available" exactly for the services that are set.  Its
    version is "1.0.0", its uptime 0, and its timestamp is the time at
    which the pings were over. *)
Theorem health_check_snapshot_shape (g : globals) (env : environment) (w : world)
    (h : HealthResponse) (w' : world) :
  run env (health_check g) w = (Value h, w') ->
  version h = "1.0.0" /\ uptime h = 0%Z /\ timestamp h = clock w'
  /\ ((services h = ∅
       /\ is_Some (db g) /\ exists d e, env DbHealthCheck = Completes d (Raises e))
      \/ (dom (services h)
          = ({["database"; "redis"; "analytics"; "prediction"; "reporting"]} : gset string)
          /\ services h !! "analytics" = Some (availability (analytics_service g))
          /\ services h !! "prediction" = Some (availability (prediction_service g))
          /\ services h !! "reporting" = Some (availability (report_service g))
          /\ (db g = None \/ exists d v, env DbHealthCheck = Completes d (Returns v)))).
Proof.
  snapshot_cases g env; intros Hrun; try discriminate; simplify_eq; cbn;
    (split; [reflexivity|]; split; [reflexivity|]; split; [reflexivity|]);
    first [ left; by eauto 6
          | right; split; [rewrite !dom_insert_L, dom_empty_L; set_solver|];
            split; [by simplify_map_eq|]; split; [by simplify_map_eq|];
            split; [by simplify_map_eq|]; eauto ].
Qed.

Lemma health_check_snapshot_shape_witness :
  exists h w',
    run (Scenario.pings (Completes 3 (Raises Scenario.refused)) Hangs)
        (health_check Scenario.serving) fresh = (Value h, w')
    /\ timestamp h = clock w' /\ clock w' = 3%N.
Proof.
  eexists _, _. split; [reflexivity|]. split; [|reflexivity].
  eapply (health_check_snapshot_shape Scenario.serving
            (Scenario.pings (Completes 3 (Raises Scenario.refused)) Hangs) fresh).
  reflexivity.
Defined.

End Snapshot.

(** ** More on the container probe *)

Section ProbeRuns.
Import HealthCheck.

Lemma printed_app (evs evs' : list event) :
  printed (evs ++ evs') = (printed evs ++ printed evs')%list.
Proof. apply omap_app. Qed.

(** X11: the probe makes one request, and reads the body only of a
    response with status 200. *)
Theorem probe_reads_body_only_after_200 (cfg : Config) (env : environment) (w : world) :
  calls (journal (run env (perform_health_check cfg) w).2)
  = (calls (journal w)
       ++ SessionGet (health_url cfg)
       :: match env (SessionGet (health_url cfg)) with
          | Completes d (Returns v) => if py_eq_int v 200 then [ResponseJson] else []
          | _ => []
          end)%list.
Proof.
  unfold perform_health_check. cbn.
  destruct (env (SessionGet (health_url cfg))) as [d1 [v1|e1]|]; cbn;
    [destruct (py_eq_int v1 200); cbn;
     [destruct (env ResponseJson) as [d2 [data|e2]|]; cbn;
      [destruct data as [| | | | |items]; cbn;
       try destruct (py_eq_str (default PyNone (assoc "status" items)) "healthy"); cbn
      | destruct e2; cbn |] |]
    | destruct e1; cbn |];
    unfold calls; rewrite ?omap_app; cbn; rewrite ?app_nil_r, <- ?app_assoc; done.
Qed.

(** X13: an exception that ends the request, or the reading of the body of
    a 200, makes the probe return [False] and print one line that tells its
    kind: the timeout line, which gives the configured TIMEOUT, for
    [asyncio.TimeoutError]; the client error line with the text of the
    exception for another [aiohttp.ClientError]; the unexpected error line
    with its text for anything else. *)
Theorem probe_reports_exception (cfg : Config) (env : environment) (w : world) (e : exn) :
  (exists d, env (SessionGet (health_url cfg)) = Completes d (Raises e))
  \/ (exists d d',
         env (SessionGet (health_url cfg)) = Completes d (Returns (PyInt 200))
         /\ env ResponseJson = Completes d' (Raises e)) ->
  exists w',
    run env (perform_health_check cfg) w = (Value false, w')
    /\ printed (journal w')
       = (printed (journal w)
            ++ [match e with
                | TimeoutError _ =>
                    "Health check failed: Timeout after " +:+ pretty (TIMEOUT cfg) +:+ "s"
                | ClientError _ => "Health check failed: Client error - " +:+ str e
                | _ => "Health check failed: Unexpected error - " +:+ str e
                end])%list.
Proof.
  intros [(d & Hget) | (d & d' & Hget & Hjson)];
    unfold perform_health_check; cbn; rewrite Hget; cbn; rewrite ?Hjson; cbn;
    destruct e; cbn;
    (eexists; split; [reflexivity|]; cbn;
     rewrite ?printed_app; cbn; rewrite ?app_nil_r, <- ?app_assoc; done).
Qed.

Lemma probe_reports_exception_witness :
  exists w',
    run (fun c => match c with
                  | ResponseJson => Completes 7 (Raises (TimeoutError ""))
                  | _ => Completes 1 (Returns (PyInt 200))
                  end)
        (perform_health_check Scenario.probe) fresh = (Value false, w')
    /\ printed (journal w')
       = (printed (journal fresh) ++ ["Health check failed: Timeout after 5s"])%list.
Proof.
  apply (probe_reports_exception Scenario.probe
           (fun c => match c with
                     | ResponseJson => Completes 7 (Raises (TimeoutError ""))
                     | _ => Completes 1 (Returns (PyInt 200))
                     end)
           fresh (TimeoutError "")).
  right. exists 1%N, 7%N. split; reflexivity.
Defined.

(** X14: of a 200 whose body is read, the probe passes only a JSON object
    whose "status" is the string "healthy".  An object with another
    status, or with none, is reported unhealthy; a body that is not an
    object is reported as an unexpected error, the [AttributeError] of
    calling [get] on it; the probe returns [False] for both. *)
Theorem probe_judges_body (cfg : Config) (env : environment) (w : world)
    (d d' : N) (data : pyval) :
  env (SessionGet (health_url cfg)) = Completes d (Returns (PyInt 200)) ->
  env ResponseJson = Completes d' (Returns data) ->
  exists w',
    run env (perform_health_check cfg) w
    = (Value match data with
             | PyDict items => py_eq_str (default PyNone (assoc "status" items)) "healthy"
             | _ => false
             end, w')
    /\ printed (journal w')
       = (printed (journal w)
            ++ [match data with
                | PyDict items =>
                    if py_eq_str (default PyNone (assoc "status" items)) "healthy"
                    then "Health check passed: "
                    else "Health check failed: Service unhealthy - "
                | _ => "Health check failed: Unexpected error - '"
                       +:+ type_name data +:+ "' object has no attribute 'get'"
                end])%list.
Proof.
  intros Hget Hjson.
  unfold perform_health_check. cbn. rewrite Hget. cbn. rewrite Hjson. cbn.
  destruct data as [| | | | |items]; cbn;
    try (destruct (py_eq_str (default PyNone (assoc "status" items)) "healthy"); cbn);
    (eexists; split; [reflexivity|]; cbn;
     rewrite ?printed_app; cbn; rewrite ?app_nil_r, <- ?app_assoc; done).
Qed.

Lemma probe_judges_body_witness :
  exists w',
    run (fun c => match c with
                  | ResponseJson => Completes 1 (Returns (PyList [PyStr "healthy"]))
                  | _ => Completes 1 (Returns (PyInt 200))
                  end)
        (perform_health_check Scenario.probe) fresh
    = (Value false, w')
    /\ printed (journal w')
       = (printed (journal fresh)
            ++ ["Health check failed: Unexpected error - 'list' object has no attribute 'get'"])%list.
Proof.
  apply (probe_judges_body Scenario.probe
           (fun c => match c with
                     | ResponseJson => Completes 1 (Returns (PyList [PyStr "healthy"]))
                     | _ => Completes 1 (Returns (PyInt 200))
                     end)
           fresh 1%N 1%N (PyList [PyStr "healthy"]));
    reflexivity.
Defined.

End ProbeRuns.

(** ** More on the background tasks *)

Section Schedule.
Import Main EventLoop.

Lemma resume_clock (m : coro unit) (w : world) : clock (resume m w).2 = clock w.
Proof.
  revert w; induction m as [a|e|c k IH|n k IH|ev k IH|k IH]; intros w; cbn; auto.
  by rewrite IH.
Qed.

Lemma step_clock g j wk dt s s' :
  step g j wk dt s = Some s' -> clock (seen s') = (clock (seen s) + dt)%N.
Proof.
  unfold step. destruct (task j s) as [|c k|due k|e], wk; try discriminate.
  - intros ?; simplify_eq. by rewrite seen_update, resume_clock.
  - intros ?; simplify_eq. by rewrite seen_update, resume_clock.
  - destruct (due <=? _)%N; [|discriminate].
    intros ?; simplify_eq. by rewrite seen_update, resume_clock.
Qed.

Lemma exec_clock g turns s s' :
  exec g turns s = Some s' -> (clock (seen s) <= clock (seen s'))%N.
Proof.
  revert s; induction turns as [|[[j wk] dt] rest IH]; intros s Hexec; cbn in Hexec.
  - simplify_eq. lia.
  - destruct (step g j wk dt s) as [s1|] eqn:Hstep; [|discriminate].
    apply step_clock in Hstep. apply IH in Hexec. lia.
Qed.

(** A task asleep on a timer stays so, through the turns of any task, until
    the time the timer is due. *)
Lemma asleep_until_due g j due k turns s s' :
  task j s = OnTimer due k -> exec g turns s = Some s' ->
  task j s' = OnTimer due k \/ (due <= clock (seen s'))%N.
Proof.
  revert s; induction turns as [|[[j0 wk] dt] rest IH]; intros s Hst Hexec; cbn in Hexec.
  - simplify_eq. by left.
  - destruct (step g j0 wk dt s) as [s1|] eqn:Hstep; [|discriminate].
    destruct (decide (j0 = j)) as [->|Hne].
    + right. pose proof (exec_clock _ _ _ _ Hexec) as Hmono.
      pose proof (step_clock _ _ _ _ _ _ Hstep) as Hclock.
      unfold step in Hstep. rewrite Hst in Hstep. destruct wk; try discriminate.
      cbn in Hstep. destruct (due <=? clock (seen s) + dt)%N eqn:Hdue; [|discriminate].
      apply N.leb_le in Hdue. lia.
    + apply (IH s1); [|done].
      unfold step in Hstep.
      destruct (task j0 s) as [|c k0|due0 k0|e], wk; try discriminate;
        try (destruct (due0 <=? _)%N; [|discriminate]);
        simplify_eq; by rewrite task_update_ne.
Qed.

(** X15: the interval of a job runs from the end of its action.  Once the
    action of a job has ended, whatever turns the loop takes afterwards,
    the task is still asleep on its timer unless the job's interval (86400
    for training, 300 for metrics) has passed since. *)
Theorem background_job_waits_interval (g : globals) (w0 : world) (s : loop_state)
    (j : job) (c : callee) (k : outcome -> coro unit)
    (o : outcome) (dt : N) (s1 : loop_state)
    (turns : list (job * wakeup * N)) (s2 : loop_state) :
  reachable g w0 s ->
  task j s = OnCall c k ->
  step g j (Answer o) dt s = Some s1 ->
  exec g turns s1 = Some s2 ->
  task j s2 = OnTimer (clock (seen s1) + interval j) (Ret tt)
  \/ (clock (seen s1) + interval j <= clock (seen s2))%N.
Proof.
  intros Hreach Hst Hstep Hexec.
  destruct (reachable_invariant _ _ _ Hreach j) as [Hp _]. rewrite Hst in Hp.
  inversion Hp as [ | k0 Hset Hk [Hc Hk0] | ]; subst.
  pose proof (step_clock _ _ _ _ _ _ Hstep) as Hclock.
  rewrite (step_answer _ _ _ _ _ o dt Hst), Hk in Hstep. simplify_eq.
  eapply asleep_until_due; [|exact Hexec].
  rewrite task_update_eq, seen_update. cbn [fst snd]. rewrite clock_records. cbn.
  reflexivity.
Qed.

Lemma background_job_waits_interval_witness :
  task model_training Scenario.collecting
  = OnTimer (clock (seen Scenario.trained) + 86400) (Ret tt)
  \/ (clock (seen Scenario.trained) + 86400 <= clock (seen Scenario.collecting))%N.
Proof.
  apply (background_job_waits_interval Scenario.serving fresh Scenario.retraining
           model_training RetrainModels _ (Returns PyNone) 10%N Scenario.trained
           [(metrics_collection, Start, 100%N)] Scenario.collecting
           retraining_reachable eq_refl eq_refl eq_refl).
Defined.

Lemma begins_not_called j (evs : list event) :
  Forall (fun ev => begins j ev = false) evs -> Called (action j) ∉ evs.
Proof.
  intros Hall Hin. rewrite Forall_forall in Hall. apply Hall in Hin.
  by destruct j.
Qed.

(** Entering the body of another job, or of a job whose service is unset,
    does not begin the action of [j]. *)
Lemma resume_body_elsewhere g j j0 w :
  j0 <> j \/ service_set g j = false ->
  exists evs, (resume (body g j0) w).2 = records evs w
              /\ Forall (fun ev => begins j ev = false) evs.
Proof.
  intros Hwhy.
  destruct j, j0; cbn in *; unfold background_model_training, background_metrics_collection;
    destruct (prediction_service g) as [sp|], (analytics_service g) as [sa|]; cbn in *;
    try (destruct Hwhy as [Hne|Hunset]; [by destruct Hne | discriminate]);
    first [ by exists []
          | eexists [_]; split; [reflexivity | by repeat constructor]
          | eexists [_; _]; split; [reflexivity | by repeat constructor] ].
Qed.

(** X16: while the service a job works on is unset, the job never calls
    its action: in no reachable state is its task suspended on a call, and
    the journal holds no call of the action made since the tasks were
    created.  The task is not crashed either: it goes on through its loop,
    from sleep to sleep. *)
Theorem background_job_idles_without_service (g : globals) (w0 : world)
    (s : loop_state) (j : job) :
  reachable g w0 s ->
  service_set g j = false ->
  (task j s = Runnable \/ exists due, task j s = OnTimer due (Ret tt))
  /\ exists evs, journal (seen s) = (journal w0 ++ evs)%list
                 /\ Called (action j) ∉ evs.
Proof.
  intros Hreach Hunset. split.
  - destruct (reachable_invariant _ _ _ Hreach j) as [Hp _].
    inversion Hp as [ | k Hset | due ]; [by left | congruence | right; eauto].
  - cut (exists evs, journal (seen s) = (journal w0 ++ evs)%list
                     /\ Forall (fun ev => begins j ev = false) evs).
    { intros (evs & Hevs & Hall). exists evs. split; [done | by apply begins_not_called]. }
    induction Hreach as [|s j0 wk dt s' Hreach IH Hstep].
    + exists []. split; [by rewrite app_nil_r | constructor].
    + destruct IH as (evs & Hevs & Hall).
      destruct (reachable_invariant _ _ _ Hreach j0) as [Hp0 _].
      destruct (reachable_invariant _ _ _ Hreach j) as [Hp _].
      unfold step in Hstep.
      inversion Hp0 as [Hst | k Hset Hk Hst | due Hst];
        rewrite <- Hst in Hstep; destruct wk; try discriminate.
      * simplify_eq.
        destruct (resume_body_elsewhere g j j0 (tick dt (seen s))) as (evs' & Hevs' & Hall').
        { destruct (decide (j0 = j)) as [->|Hne]; [by right | by left]. }
        exists (evs ++ evs')%list. rewrite seen_update, Hevs', journal_records. cbn.
        rewrite Hevs, <- app_assoc. split; [done | by apply Forall_app].
      * simplify_eq. rewrite Hk, seen_update. cbn [snd].
        exists (evs ++ Answered (action j0) o :: epilogue j0 o)%list.
        rewrite journal_records. cbn. rewrite Hevs, <- !app_assoc. split; [done|].
        apply Forall_app. split; [done|].
        constructor; [done|]. destruct j0, o; repeat constructor.
      * destruct (due <=? _)%N; [|discriminate]. simplify_eq.
        exists evs. rewrite seen_update. cbn. by split.
Qed.

Lemma background_job_idles_without_service_witness :
  (task model_training Scenario.idling = Runnable
   \/ exists due, task model_training Scenario.idling = OnTimer due (Ret tt))
  /\ exists evs, journal (seen Scenario.idling) = (journal fresh ++ evs)%list
                 /\ Called RetrainModels ∉ evs.
Proof.
  apply (background_job_idles_without_service Scenario.connected_only fresh
           Scenario.idling model_training).
  - apply (exec_reachable _ _
             [(model_training, Start, 0%N); (model_training, Timer, 86400%N);
              (model_training, Start, 0%N)] (created fresh));
      [constructor | reflexivity].
  - reflexivity.
Defined.

(** What a turn of the loop adds to the journal. *)
Lemma step_events g w0 s j0 wk dt s' :
  reachable g w0 s -> step g j0 wk dt s = Some s' ->
  (forall j, j <> j0 -> task j s' = task j s)
  /\ exists evs,
      journal (seen s') = (journal (seen s) ++ evs)%list
      /\ ((wk = Start /\ service_set g j0 = true
           /\ evs = (prologue j0 ++ [Called (action j0)])%list
           /\ awaiting (task j0 s) = 0%Z /\ awaiting (task j0 s') = 1%Z)
          \/ (wk = Start /\ service_set g j0 = false /\ evs = idle_run j0
              /\ awaiting (task j0 s) = 0%Z /\ awaiting (task j0 s') = 0%Z)
          \/ (exists o, wk = Answer o /\ evs = Answered (action j0) o :: epilogue j0 o
                        /\ awaiting (task j0 s) = 1%Z /\ awaiting (task j0 s') = 0%Z)
          \/ (wk = Timer /\ evs = []
              /\ awaiting (task j0 s) = 0%Z /\ awaiting (task j0 s') = 0%Z)).
Proof.
  intros Hreach Hstep.
  destruct (reachable_invariant _ _ _ Hreach j0) as [Hp0 _].
  unfold step in Hstep.
  inversion Hp0 as [Hst | k Hset Hk Hst | due Hst];
    rewrite <- Hst in Hstep; destruct wk; try discriminate.
  - simplify_eq. split; [intros j Hne; by rewrite task_update_ne|].
    rewrite task_update_eq, seen_update.
    destruct j0; cbn; unfold background_model_training, background_metrics_collection.
    + destruct (prediction_service g) as [sp|]; cbn.
      * eexists. split; [by rewrite <- app_assoc|]. left. by repeat split.
      * eexists. split; [by rewrite <- app_assoc|]. right; left. by repeat split.
    + destruct (analytics_service g) as [sa|]; cbn.
      * eexists. split; [reflexivity|]. left. by repeat split.
      * exists []. split; [by rewrite app_nil_r|]. right; left. by repeat split.
  - simplify_eq. split; [intros j Hne; by rewrite task_update_ne|].
    rewrite Hk, task_update_eq, seen_update. cbn [fst snd].
    exists (Answered (action j0) o :: epilogue j0 o).
    rewrite journal_records. cbn. split; [by rewrite <- app_assoc|].
    right; right; left. exists o. by repeat split.
  - destruct (due <=? _)%N; [|discriminate]. simplify_eq.
    split; [intros j Hne; by rewrite task_update_ne|].
    rewrite task_update_eq, seen_update. cbn.
    exists []. split; [by rewrite app_nil_r|]. right; right; right. by repeat split.
Qed.

Lemma prefix_append (p s : string) : String.prefix p (p +:+ s) = true.
Proof.
  induction p as [|a p IH].
  - change ("" +:+ s) with s. by destruct s.
  - change (String a p +:+ s) with (String a (p +:+ s)). cbn.
    by destruct (Ascii.ascii_dec a a).
Qed.

Lemma training_balance_failure j e :
  training_balance (Logged ERROR (failure_message j e))
  = match j with model_training => (-1)%Z | metrics_collection => 0%Z end.
Proof.
  destruct j; [|vm_compute; reflexivity].
  cbn [training_balance failure_message]. by rewrite prefix_append.
Qed.

Lemma unfinished_epilogue j o :
  unfinished (epilogue j o)
  = match j with model_training => (-1)%Z | metrics_collection => 0%Z end.
Proof.
  destruct o as [v|e]; [by destruct j|].
  change (epilogue j (Raises e)) with [Logged ERROR (failure_message j e)].
  cbn [unfinished foldr]. rewrite training_balance_failure. destruct j; lia.
Qed.

Lemma unfinished_app (evs evs' : list event) :
  unfinished (evs ++ evs') = (unfinished evs + unfinished evs')%Z.
Proof.
  induction evs as [|ev evs IH]; [reflexivity|].
  change (training_balance ev + unfinished (evs ++ evs')
          = training_balance ev + unfinished evs + unfinished evs')%Z.
  rewrite IH. lia.
Qed.

Lemma failures_app (evs evs' : list event) :
  failures (evs ++ evs') = (failures evs + failures evs')%nat.
Proof. unfold failures. by rewrite filter_app, length_app. Qed.

(** X17: the log of the training job balances.  In every reachable state
    the training ticks announced by "Starting scheduled model training"
    and not yet followed by "Scheduled model training completed" or by
    "Model training failed: ..." number one when the retraining is in
    flight and none otherwise; nothing the metrics job logs disturbs the
    count. *)
Theorem training_log_balances (g : globals) (w0 : world) (s : loop_state) :
  reachable g w0 s ->
  unfinished (journal (seen s))
  = (unfinished (journal w0) + awaiting (task model_training s))%Z.
Proof.
  induction 1 as [|s j0 wk dt s' Hreach IH Hstep]; [cbn; lia|].
  destruct (step_events _ _ _ _ _ _ _ Hreach Hstep) as (Hother & evs & -> & Hcase).
  rewrite unfinished_app, IH.
  assert (Hanswer : forall j o,
             unfinished (Answered (action j) o :: epilogue j o) = unfinished (epilogue j o))
    by (intros j o; reflexivity).
  destruct j0.
  - destruct Hcase as [(_ & _ & -> & -> & ->)|[(_ & _ & -> & -> & ->)
                      |[(o & _ & -> & -> & ->)|(_ & -> & -> & ->)]]];
      rewrite ?Hanswer, ?unfinished_epilogue; cbn; lia.
  - rewrite (Hother model_training) by done.
    destruct Hcase as [(_ & _ & -> & _)|[(_ & _ & -> & _)
                      |[(o & _ & -> & _)|(_ & -> & _)]]];
      rewrite ?Hanswer, ?unfinished_epilogue; cbn; lia.
Qed.

Lemma training_log_balances_witness :
  unfinished (journal (seen Scenario.trained))
  = (unfinished (journal fresh) + awaiting (task model_training Scenario.trained))%Z.
Proof.
  apply (training_log_balances Scenario.serving fresh Scenario.trained).
  apply (reach_step _ _ Scenario.retraining model_training (Answer (Returns PyNone)) 10%N);
    [apply retraining_reachable | reflexivity].
Defined.

(** X18: the background jobs log an error for every run of an action
    that raised and for nothing else: in every reachable state the errors
    logged since the tasks were created are as many as the calls that
    ended with an exception. *)
Theorem background_errors_match_failures (g : globals) (w0 : world) (s : loop_state) :
  reachable g w0 s ->
  exists evs,
    journal (seen s) = (journal w0 ++ evs)%list
    /\ length (errors evs) = failures evs.
Proof.
  induction 1 as [|s j0 wk dt s' Hreach IH Hstep].
  - exists []. split; [cbn; by rewrite app_nil_r | done].
  - destruct IH as (evs & Hevs & Hcount).
    destruct (step_events _ _ _ _ _ _ _ Hreach Hstep) as (_ & evs' & -> & Hcase).
    exists (evs ++ evs')%list. rewrite Hevs, <- app_assoc. split; [done|].
    unfold errors in *. rewrite omap_app, length_app, failures_app, Hcount. f_equal.
    destruct Hcase as [(_ & _ & -> & _)|[(_ & _ & -> & _)
                      |[(o & _ & -> & _)|(_ & -> & _)]]];
      destruct j0; try destruct o; reflexivity.
Qed.

Lemma background_errors_match_failures_witness :
  exists evs,
    journal (seen Scenario.retraining) = (journal fresh ++ evs)%list
    /\ length (errors evs) = failures evs.
Proof.
  apply (background_errors_match_failures Scenario.serving fresh Scenario.retraining
           retraining_reachable).
Defined.

End Schedule.

(** ** The whole of [lifespan] *)

Section Lifecycle.
Import Main.

Lemma infos_app (evs evs' : list event) :
  infos (evs ++ evs') = (infos evs ++ infos evs')%list.
Proof. apply omap_app. Qed.

(** X19: after a startup that completed, the shutdown finds both handles
    set, so the only exceptions that can leave it are those of the redis
    close and of the database disconnect; it completes exactly when both
    return, and "Analytics service shutdown completed" is logged then and
    only then. *)
Theorem lifespan_shutdown_after_startup (settings : Settings) (env : environment)
    (w : world) (gs : globals) (ws : world) (env' : environment) (w' : world) :
  run env (lifespan_startup settings) w = (Value gs, ws) ->
  match (run env' (lifespan_shutdown gs) w').1 with
  | Value _ =>
      (exists d v, env' RedisClose = Completes d (Returns v))
      /\ (exists d v, env' DbDisconnect = Completes d (Returns v))
  | Error e =>
      (exists d, env' RedisClose = Completes d (Raises e))
      \/ ((exists d v, env' RedisClose = Completes d (Returns v))
          /\ exists d, env' DbDisconnect = Completes d (Raises e))
  | Stuck => env' RedisClose = Hangs \/ env' DbDisconnect = Hangs
  end
  /\ infos (journal (run env' (lifespan_shutdown gs) w').2)
     = (infos (journal w')
          ++ "Shutting down analytics service"
          :: match (run env' (lifespan_shutdown gs) w').1 with
             | Value _ => ["Analytics service shutdown completed"]
             | _ => []
             end)%list.
Proof.
  unfold lifespan_startup. cbn.
  destruct (env DbConnect) as [d1 [v1|e1]|]; cbn; try discriminate.
  destruct (env RedisPing) as [d2 [v2|e2]|]; cbn; try discriminate.
  intros Hrun. simplify_eq. unfold lifespan_shutdown. cbn.
  destruct (env' RedisClose) as [d3 [v3|e3]|] eqn:Hclose; cbn;
    [destruct (env' DbDisconnect) as [d4 [v4|e4]|] eqn:Hdisc; cbn| |];
    (split; [eauto 8|]);
    rewrite ?infos_app; cbn; rewrite ?app_nil_r, <- ?app_assoc; done.
Qed.

Lemma lifespan_shutdown_after_startup_witness :
  exists gs ws,
    run Scenario.no_such_task
        (lifespan_startup {| database_url := "postgresql://analytics";
                             redis_url := "redis://cache" |}) fresh = (Value gs, ws)
    /\ infos (journal (run (Scenario.disconnects (Returns PyNone) (Raises Scenario.refused))
                           (lifespan_shutdown gs) ws).2)
       = (infos (journal ws) ++ ["Shutting down analytics service"])%list.
Proof.
  eexists _, _. split; [reflexivity|].
  eapply (proj2 (lifespan_shutdown_after_startup _ Scenario.no_such_task fresh _ _
                   (Scenario.disconnects (Returns PyNone) (Raises Scenario.refused)) _
                   eq_refl)).
Defined.

End Lifecycle.
